(** * Kaya chat application ([subagents.py]): model and properties

    The program is a Streamlit script.  Streamlit re-executes the whole
    script from its first line after every interaction of the user with a
    widget; the only data that survives from one execution to the next is
    [st.session_state] and the values held by the widgets.

    The development follows the script:
    - [Config]    the value built by [get_claude_options];
    - [Assembly]  the body of [process_message];
    - [Script]    one execution of the script, in a monad that threads
                  [st.session_state] and Python exceptions, those that
                  [except Exception] catches and those it does not;
    - [Controller] the three interactions of the user ([submit], [clear],
                  [select_model]) as executions of the script;
    - [Page]      the script again, with the calls that draw on the page.

    Calls that only draw on the page ([st.title], [st.caption],
    [st.markdown], [st.error], [st.divider], ...) change neither
    [st.session_state] nor the control flow; [Script] leaves them out,
    and [Page] is shown to end with the same session. *)

From stdpp Require Import base option list strings gmap.

Local Open Scope string_scope.

(** ** Python values the script handles *)

(** An instance of Python's [Exception]: the name of its class and the
    text [str(e)] gives for it.  These are the exceptions an
    [except Exception] clause matches. *)
Record PyException := mkExc {
  exc_type : string;
  exc_str : string
}.

(** An exception object whose class derives from [BaseException] but
    not from [Exception]: [asyncio.CancelledError], [KeyboardInterrupt],
    [SystemExit], [GeneratorExit].  An [except Exception] clause does not
    match it. *)
Record PyBaseException := mkBase {
  base_type : string;
  base_str : string
}.

(** Result of a Python function: it returns a value or it raises. *)
Inductive result (A : Type) : Type :=
  | Returns (a : A)
  | Raises (e : PyException).
Arguments Returns {A} a.
Arguments Raises {A} e.

#[global] Instance result_ret : MRet result := fun _ a => Returns a.
#[global] Instance result_bind : MBind result := fun _ _ f m =>
  match m with
  | Returns a => f a
  | Raises e => Raises e
  end.

(** ** The agent configuration *)

Module Config.

(** [AgentDefinition(description=, prompt=, model=, tools=)] *)
Record AgentDefinition := mkAgentDefinition {
  description : string;
  prompt : string;
  agent_model : string;
  tools : list string
}.

(** An entry of [mcp_servers]: [{"command": ..., "args": [...]}]. *)
Record McpServer := mkMcpServer {
  command : string;
  args : list string
}.

(** [ClaudeAgentOptions(model=, permission_mode=, setting_sources=,
    allowed_tools=, agents=, mcp_servers=)] *)
Record ClaudeAgentOptions := mkOptions {
  model : string;
  permission_mode : string;
  setting_sources : list string;
  allowed_tools : list string;
  agents : gmap string AgentDefinition;
  mcp_servers : gmap string McpServer
}.

(** The 21 Playwright tool names; the script spells the same run of names
    in [allowed_tools] and in two of the subagents. *)
Definition playwright_tools : list string :=
  [ "mcp__Playwright__browser_close";
    "mcp__Playwright__browser_resize";
    "mcp__Playwright__browser_console_messages";
    "mcp__Playwright__browser_handle_dialog";
    "mcp__Playwright__browser_evaluate";
    "mcp__Playwright__browser_file_upload";
    "mcp__Playwright__browser_fill_form";
    "mcp__Playwright__browser_install";
    "mcp__Playwright__browser_press_key";
    "mcp__Playwright__browser_type";
    "mcp__Playwright__browser_navigate";
    "mcp__Playwright__browser_navigate_back";
    "mcp__Playwright__browser_network_requests";
    "mcp__Playwright__browser_take_screenshot";
    "mcp__Playwright__browser_snapshot";
    "mcp__Playwright__browser_click";
    "mcp__Playwright__browser_drag";
    "mcp__Playwright__browser_hover";
    "mcp__Playwright__browser_select_option";
    "mcp__Playwright__browser_tabs";
    "mcp__Playwright__browser_wait_for" ].

(** [allowed_tools=[...]], lines 43-76. *)
Definition top_level_tools : list string :=
  [ "Read"; "Write"; "Edit"; "MultiEdit"; "Grep"; "Glob";
    "Task"; "TodoWrite"; "WebSearch"; "WebFetch" ] ++ playwright_tools.

(** The file tools every subagent lists first. *)
Definition file_tools : list string :=
  [ "Read"; "Write"; "Edit"; "MultiEdit"; "Grep"; "Glob"; "TodoWrite" ].

Definition youtube_analyst : AgentDefinition :=
  {| description := "An expert at analyzing a user's Youtube channel performance. The analyst will produce a markdown report in the /docs directory.";
     prompt := "You are an expert at analyzing YouTube data and helping the user understand their performance. You can use the Playwright browser tools to access the user's Youtube Studio. Generate a markdown report in the /docs directory.";
     agent_model := "sonnet";
     tools := file_tools ++ playwright_tools |}.

Definition researcher : AgentDefinition :=
  {| description := "An expert researcher and documentation writer. The agent will perform deep research of a topic and generate a report or documentation in the /docs directory.";
     prompt := "You are an expert researcher and report/documentation writer. Use the WebSearch and WebFetch tools to perform research. You can research multiple subtopics/angles to get a holistic understanding of the topic. You can use filesystem tools to track findings and data in the /docs directory. For longer reports, you can break the work into multiple tasks or write sections at a time. But the final output should be a single markdown report. The final report **MUST** include a citations section with links to all sources used. Review the full report, identify any areas for improvement in readability, cohorerence, and relevancy, and make any necessary edits before declaring the task complete. Clean up any extraneous files and only leave the final report in the /docs directory when you are done. You are only permitted to use these specific tools: Read, Write, Edit, MultiEdit, Grep, Glob, TodoWrite, WebSearch, WebFetch. All other tools are prohibited.";
     agent_model := "sonnet";
     tools := file_tools ++ [ "WebSearch"; "WebFetch" ] |}.

Definition events_agent : AgentDefinition :=
  {| description := "You are gathering incoming AI events in bay area. Asking for the input of how many days you want to check, search for sources from https://luma.com/sf, Meetup, eventbrite, startupgrind, Y combinator, 500 startups, Andreessen Horowitz (a16z), Stanford Events, Berkeley Events, LinkedIn Events, Silicon Valley Forum, Galvanize, StrictlyVC, Bay Area Tech Events, cerebralvalley.ai/events , you must include RSVP URL.";
     prompt := "You are searching for AI events in the next few days. Ask for how many days in advance. Gather the events, make sure to include short description, location and RSVP URL";
     agent_model := "sonnet";
     tools := file_tools ++ playwright_tools |}.

(** [get_claude_options(model)], lines 37-176.  The two dict literals
    become finite maps keyed by name. *)
Definition get_claude_options (model : string) : ClaudeAgentOptions :=
  {| model := model;
     permission_mode := "acceptEdits";
     setting_sources := [ "project" ];
     allowed_tools := top_level_tools;
     agents :=
       <[ "youtube-analyst" := youtube_analyst ]>
       (<[ "researcher" := researcher ]>
       (<[ "events_agent" := events_agent ]> ∅));
     mcp_servers :=
       {[ "Playwright" :=
            {| command := "npx"; args := [ "-y"; "@playwright/mcp@latest" ] |} ]} |}.

(** The names the sidebar prints under "Available Subagents",
    lines 215-220. *)
Definition sidebar_subagents : list string :=
  [ "youtube-analyst"; "researcher"; "documentation-writer"; "events_agent" ].

End Config.

(** ** Response assembly: [process_message] *)

Module Assembly.
Import Config.

(** What a [text] attribute may hold: a [str], or an object of another
    type (named by its class, as [type(x).__name__] gives it). *)
Inductive PyObj :=
  | PyStr (s : string)
  | PyOther (type_name : string).

(** An element of [message.content] when that is a list.
    [block_text = None] stands for [not hasattr(content_block, 'text')]. *)
Record ContentBlock := mkBlock {
  block_text : option PyObj
}.

(** The [content] attribute of a message: a list of blocks, or any other
    object, of which only the [text] attribute (if it has one) is read. *)
Inductive MessageContent :=
  | ContentList (blocks : list ContentBlock)
  | ContentObj (text : option PyObj).

(** A message yielded by [client.receive_response()].
    [msg_content = None] stands for [not hasattr(message, 'content')]. *)
Record SdkMessage := mkMessage {
  msg_content : option MessageContent
}.

(** What the SDK does for one request, as the loop of [process_message]
    sees it: the messages [receive_response()] yields, in order, and
    then either the end of the stream ([failure = None]) or an exception.
    An exception while connecting or in [client.query] is a response
    with no events; one while disconnecting comes after all of them.
    When the loop itself raises, the exit of [async with] is taken not
    to raise in its turn. *)
Record Response := mkResponse {
  events : list SdkMessage;
  failure : option PyException
}.

(** The SDK and the service behind it during one request: the response
    to the options and prompt it is passed. *)
Definition Agent : Type := ClaudeAgentOptions → string → Response.

Definition dquote : string := String (Ascii.ascii_of_nat 34) EmptyString.

(** [response_text += x]: string concatenation when [x] is a [str],
    [TypeError] otherwise. *)
Definition iadd (response_text : string) (x : PyObj) : result string :=
  match x with
  | PyStr s => Returns (response_text +:+ s)
  | PyOther ty =>
      Raises (mkExc "TypeError"
        ("can only concatenate str (not " +:+ dquote +:+ ty +:+ dquote +:+ ") to str"))
  end.

(** [for content_block in message.content: ...], lines 191-193. *)
Fixpoint for_content_block (blocks : list ContentBlock)
    (response_text : string) : result string :=
  match blocks with
  | [] => Returns response_text
  | content_block :: rest =>
      match block_text content_block with
      | Some text =>
          response_text' ← iadd response_text text;
          for_content_block rest response_text'
      | None => for_content_block rest response_text
      end
  end.

(** The body of the [async for], lines 189-195. *)
Definition extract_text (message : SdkMessage)
    (response_text : string) : result string :=
  match msg_content message with
  | None => Returns response_text
  | Some (ContentList blocks) => for_content_block blocks response_text
  | Some (ContentObj (Some text)) => iadd response_text text
  | Some (ContentObj None) => Returns response_text
  end.

(** [async for message in client.receive_response(): ...], then
    [return response_text]. *)
Fixpoint receive_response (evs : list SdkMessage) (fail : option PyException)
    (response_text : string) : result string :=
  match evs with
  | [] =>
      match fail with
      | Some e => Raises e
      | None => Returns response_text
      end
  | message :: rest =>
      response_text' ← extract_text message response_text;
      receive_response rest fail response_text'
  end.

(** [process_message(user_input, model)], lines 179-197. *)
Definition process_message (agent : Agent) (user_input model : string)
    : result string :=
  let options := get_claude_options model in
  let response := agent options user_input in
  receive_response (events response) (failure response) "".

(** *** The assembly as the specification words it *)

(** The text a segment carries, when it carries one. *)
Definition segment_text (b : ContentBlock) : list string :=
  match block_text b with
  | Some (PyStr s) => [s]
  | _ => []
  end.

(** The texts an event contributes: each text-bearing segment of a list
    of segments, or the text of a single text-bearing payload. *)
Definition event_texts (m : SdkMessage) : list string :=
  match msg_content m with
  | Some (ContentList blocks) => flat_map segment_text blocks
  | Some (ContentObj (Some (PyStr s))) => [s]
  | _ => []
  end.

(** Concatenation, in order, of a list of strings. *)
Fixpoint concat_strings (l : list string) : string :=
  match l with
  | [] => ""
  | s :: l' => s +:+ concat_strings l'
  end.

(** The concatenation, in arrival order, of the texts of all events. *)
Definition spec_text (evs : list SdkMessage) : string :=
  concat_strings (flat_map event_texts evs).

(** A [text] attribute is well formed when it holds a string. *)
Definition text_ok (t : option PyObj) : Prop :=
  match t with
  | Some (PyOther _) => False
  | _ => True
  end.

Definition event_ok (m : SdkMessage) : Prop :=
  match msg_content m with
  | Some (ContentList blocks) => Forall (λ b, text_ok (block_text b)) blocks
  | Some (ContentObj t) => text_ok t
  | None => True
  end.

(** A response: the stream ends normally and every text is a string. *)
Definition is_response (r : Response) : Prop :=
  failure r = None ∧ Forall event_ok (events r).

End Assembly.

(** ** One execution of the script *)

Module Script.
Import Config Assembly.

(** An element of [st.session_state.messages]:
    [{"role": ..., "content": ...}]. *)
Record Turn := mkTurn {
  role : string;
  content : string
}.

(** A client object; the script never stores one. *)
Inductive ClaudeSDKClient :=
  | SDKClient (options : ClaudeAgentOptions).

(** [st.session_state].  A field is [None] while its key is absent.
    The value of [client] is itself Python's [None] or a client. *)
Record SessionState := mkSession {
  messages : option (list Turn);
  client : option (option ClaudeSDKClient);
  model : option string
}.

(** The session of a browser tab that has not run the script yet. *)
Definition empty_session : SessionState :=
  {| messages := None; client := None; model := None |}.

(** Result of running a piece of the script: it finishes with a value,
    it raises an instance of [Exception], it raises an exception that is
    not one, or it asks Streamlit for a rerun ([st.rerun()]), which
    abandons the current execution. *)
Inductive outcome (A : Type) : Type :=
  | Normal (a : A)
  | Raised (e : PyException)
  | RaisedBase (b : PyBaseException)
  | RerunRequested.
Arguments Normal {A} a.
Arguments Raised {A} e.
Arguments RaisedBase {A} b.
Arguments RerunRequested {A}.

(** Computations of the script: they read and write the session state
    and end in an [outcome].  Writes made before an exception stay. *)
Record St (A : Type) : Type := mkSt {
  run : SessionState → outcome A * SessionState
}.
Arguments mkSt {A} run.
Arguments run {A} _ _.

#[global] Instance St_ret : MRet St := λ _ a, mkSt (λ ss, (Normal a, ss)).
#[global] Instance St_bind : MBind St := λ _ _ f m,
  mkSt (λ ss,
    match run m ss with
    | (Normal a, ss') => run (f a) ss'
    | (Raised e, ss') => (Raised e, ss')
    | (RaisedBase b, ss') => (RaisedBase b, ss')
    | (RerunRequested, ss') => (RerunRequested, ss')
    end).

(** Calling a function that does not touch the session. *)
Definition call {A} (r : result A) : St A :=
  mkSt (λ ss,
    match r with
    | Returns a => (Normal a, ss)
    | Raises e => (Raised e, ss)
    end).

(** [try: body / except Exception as e: handler(e)].  The clause
    matches the instances of [Exception] only: an exception that is not
    one ([RaisedBase]) and a request for a rerun leave the statement as
    they are. *)
Definition try_except {A} (body : St A) (handler : PyException → St A) : St A :=
  mkSt (λ ss,
    match run body ss with
    | (Raised e, ss') => run (handler e) ss'
    | r => r
    end).

(** [st.rerun()] *)
Definition st_rerun : St unit := mkSt (λ ss, (RerunRequested, ss)).

(** Reading an attribute of [st.session_state] whose key is absent
    raises [AttributeError]. *)
Definition attribute_error (key : string) : PyException :=
  mkExc "AttributeError"
    ("st.session_state has no attribute " +:+ dquote +:+ key +:+ dquote).

Definition get_messages : St (list Turn) :=
  mkSt (λ ss,
    match messages ss with
    | Some l => (Normal l, ss)
    | None => (Raised (attribute_error "messages"), ss)
    end).

Definition get_model : St string :=
  mkSt (λ ss,
    match model ss with
    | Some m => (Normal m, ss)
    | None => (Raised (attribute_error "model"), ss)
    end).

(** [st.session_state.messages = l] *)
Definition set_messages (l : list Turn) : St unit :=
  mkSt (λ ss,
    (Normal (), {| messages := Some l; client := client ss; model := model ss |})).

(** [st.session_state.client = c] *)
Definition set_client (c : option ClaudeSDKClient) : St unit :=
  mkSt (λ ss,
    (Normal (), {| messages := messages ss; client := Some c; model := model ss |})).

(** [st.session_state.model = m] *)
Definition set_model (m : string) : St unit :=
  mkSt (λ ss,
    (Normal (), {| messages := messages ss; client := client ss; model := Some m |})).

(** [st.session_state.messages.append(t)]: the list is changed in
    place, at its end. *)
Definition messages_append (t : Turn) : St unit :=
  l ← get_messages;
  set_messages (l ++ [t]).

(** [if key not in st.session_state: body] *)
Definition if_not_in {A} (field : SessionState → option A) (body : St unit) : St unit :=
  mkSt (λ ss,
    match field ss with
    | None => run body ss
    | Some _ => (Normal (), ss)
    end).

(** Lines 29-34. *)
Definition initialize_session_state : St unit :=
  if_not_in messages (set_messages []);;
  if_not_in client (set_client None);;
  if_not_in model (set_model "sonnet").

(** What the widgets return during one execution of the script.
    - [selectbox]: the value of [st.selectbox("Select Model", ...)];
    - [button]: the value of [st.button("Clear Chat History")], true only
      in the execution started by a click on it;
    - [chat_input]: the value of [st.chat_input(...)], the text sent in
      the execution started by sending it and Python's [None] otherwise. *)
Record Widgets := mkWidgets {
  selectbox : string;
  button : bool;
  chat_input : option string
}.

(** The options of the select box, line 207.  Streamlit returns one of
    them, the first ([index=0]) until the user chooses. *)
Definition model_options : list string := [ "sonnet"; "opus"; "haiku" ].

(** Truth value of [prompt] in [if prompt := st.chat_input(...)]:
    [None] and the empty string are false. *)
Definition truthy (prompt : option string) : bool :=
  match prompt with
  | Some (String _ _) => true
  | Some EmptyString => false
  | None => false
  end.

(** What the statement [asyncio.run(process_message(...))] of line 256
    does: it returns the text, it raises an instance of [Exception], or
    it raises an exception that is not one. *)
Inductive attempt (A : Type) : Type :=
  | Returned (a : A)
  | RaisedException (e : PyException)
  | RaisedBaseException (b : PyBaseException).
Arguments Returned {A} a.
Arguments RaisedException {A} e.
Arguments RaisedBaseException {A} b.

(** The attempt made of a call.  [base = Some b] says that the call is
    left by [b], an exception that is not an instance of [Exception]
    (the task is cancelled, the process is interrupted or told to
    exit); otherwise the call ends as the coroutine does. *)
Definition attempt_of {A} (base : option PyBaseException) (r : result A)
    : attempt A :=
  match base with
  | Some b => RaisedBaseException b
  | None =>
      match r with
      | Returns a => Returned a
      | Raises e => RaisedException e
      end
  end.

(** [asyncio.run(coro)] *)
Definition asyncio_run {A} (a : attempt A) : St A :=
  mkSt (λ ss,
    match a with
    | Returned v => (Normal v, ss)
    | RaisedException e => (Raised e, ss)
    | RaisedBaseException b => (RaisedBase b, ss)
    end).

(** The body of [if prompt := st.chat_input(...)], lines 244-266, for a
    call that [base] may leave. *)
Definition chat_under (base : option PyBaseException) (agent : Agent)
    (prompt : string) : St unit :=
  messages_append {| role := "user"; content := prompt |};;
  try_except
    (m ← get_model;
     response ← asyncio_run (attempt_of base (process_message agent prompt m));
     messages_append {| role := "assistant"; content := response |})
    (λ e,
     let error_msg := "Error: " +:+ exc_str e in
     messages_append {| role := "assistant"; content := error_msg |}).

(** The same, for a call that raises nothing but instances of
    [Exception]. *)
Definition chat (agent : Agent) (prompt : string) : St unit :=
  chat_under None agent prompt.

(** The script, top to bottom.  [agent] is what the SDK would answer
    during this execution, [base] what may leave the call. *)
Definition script_under (base : option PyBaseException) (agent : Agent)
    (w : Widgets) : St unit :=
  initialize_session_state;;
  (* sidebar *)
  let model_option := selectbox w in
  set_model model_option;;
  (if button w then set_messages [];; st_rerun else mret ());;
  (* main chat interface: caption and history *)
  _ ← get_model;
  _ ← get_messages;
  (* chat input *)
  let prompt := chat_input w in
  if truthy prompt then chat_under base agent (default "" prompt) else mret ().

(** The script when the call raises nothing but instances of
    [Exception]. *)
Definition script (agent : Agent) (w : Widgets) : St unit :=
  script_under None agent w.

(** The widgets in the execution that follows [st.rerun()]: the select
    box keeps its value, the button and the chat input are at rest. *)
Definition at_rest (w : Widgets) : Widgets :=
  {| selectbox := selectbox w; button := false; chat_input := None |}.

(** Streamlit runs the script and, when it asks for a rerun, runs it
    again from the top on the session as it is then.  An exception that
    leaves the script ends the execution; the session keeps what was
    written before it. *)
Definition execute_under (base : option PyBaseException) (agent : Agent)
    (w : Widgets) (ss : SessionState) : outcome unit * SessionState :=
  match run (script_under base agent w) ss with
  | (RerunRequested, ss') => run (script_under base agent (at_rest w)) ss'
  | r => r
  end.

Definition execute (agent : Agent) (w : Widgets) (ss : SessionState)
    : outcome unit * SessionState :=
  execute_under None agent w ss.

(** The session once lines 29-34 and 210 have run, with [l] under
    [messages]: the three keys exist, [client] keeps the value it had
    ([None] when the key was absent) and [model] is what the select box
    returned. *)
Definition settled (model_option : string) (l : list Turn) (ss : SessionState)
    : SessionState :=
  {| messages := Some l;
     client := Some (default None (client ss));
     model := Some model_option |}.

(** The Transcript: the list under [messages], empty before the first
    execution has created it. *)
Definition transcript (ss : SessionState) : list Turn :=
  default [] (messages ss).

End Script.

(** ** The controller: the interactions of the user *)

Module Controller.
Import Config Assembly Script.

(** What persists between executions: the session state and the value
    the select box holds. *)
Record App := mkApp {
  session : SessionState;
  selected : string
}.

(** An interaction sets the widgets and starts an execution. *)
Definition interact_under (base : option PyBaseException) (agent : Agent)
    (w : Widgets) (app : App) : outcome unit * App :=
  let r := execute_under base agent w (session app) in
  (r.1, {| session := r.2; selected := selectbox w |}).

Definition interact (agent : Agent) (w : Widgets) (app : App)
    : outcome unit * App :=
  interact_under None agent w app.

(** The execution started by the select box taking the value [name].
    Which values it can take is said by [pick_model]. *)
Definition select_model (agent : Agent) (name : string) (app : App)
    : outcome unit * App :=
  interact agent {| selectbox := name; button := false; chat_input := None |} app.

(** Clicking "Clear Chat History". *)
Definition clear (agent : Agent) (app : App) : outcome unit * App :=
  interact agent
    {| selectbox := selected app; button := true; chat_input := None |} app.

(** Sending [user_text] through the chat input, for a call that
    [base] may leave. *)
Definition submit_under (base : option PyBaseException) (agent : Agent)
    (user_text : string) (app : App) : outcome unit * App :=
  interact_under base agent
    {| selectbox := selected app; button := false; chat_input := Some user_text |}
    app.

(** Sending [user_text] when the call raises nothing but instances of
    [Exception]. *)
Definition submit (agent : Agent) (user_text : string) (app : App)
    : outcome unit * App :=
  submit_under None agent user_text app.


(** A browser tab that opens the page: empty session, select box on its
    first option. *)
Definition fresh_app : App :=
  {| session := empty_session; selected := "sonnet" |}.

(** The text of the assistant Turn for a result of [process_message]:
    lines 262 and 264-266. *)
Definition reply (r : result string) : string :=
  match r with
  | Returns response => response
  | Raises e => "Error: " +:+ exc_str e
  end.

Definition user_turn (text : string) : Turn :=
  {| role := "user"; content := text |}.

Definition assistant_turn (text : string) : Turn :=
  {| role := "assistant"; content := text |}.

(** The Transcript and the selected model of an application state. *)
Definition turns (app : App) : list Turn := transcript (session app).

(** A request: the text sent and what the SDK answers to it. *)
Definition Request : Type := Agent * string.

(** A sequence of [submit]s, each with its own answer from the SDK. *)
Definition submit_all (reqs : list Request) (app : App) : App :=
  foldl (λ a (rq : Request), (submit rq.1 rq.2 a).2) app reqs.

(** The user's interactions. *)
Inductive Interaction :=
  | SelectModel (name : string)
  | Clear
  | Submit (user_text : string).

Definition step (agent : Agent) (i : Interaction) (app : App) : outcome unit * App :=
  match i with
  | SelectModel name => select_model agent name app
  | Clear => clear agent app
  | Submit user_text => submit agent user_text app
  end.

Definition steps (l : list (Agent * Interaction)) (app : App) : App :=
  foldl (λ a (x : Agent * Interaction), (step x.1 x.2 a).2) app l.

(** An interaction together with what the SDK answers during it and
    what may leave the call. *)
Record Event := mkEvent {
  leaving : option PyBaseException;
  answering : Agent;
  doing : Interaction
}.

Definition step_under (base : option PyBaseException) (agent : Agent)
    (i : Interaction) (app : App) : outcome unit * App :=
  match i with
  | SelectModel name => select_model agent name app
  | Clear => clear agent app
  | Submit user_text => submit_under base agent user_text app
  end.

(** A sequence of interactions.  The session goes on after an
    execution that an exception has left. *)
Definition steps_under (l : list Event) (app : App) : App :=
  foldl (λ a (x : Event), (step_under (leaving x) (answering x) (doing x) a).2)
    app l.

(** What one request adds to the Transcript when the select box holds
    [sel]: the user Turn, then the assistant Turn. *)
Definition exchange (sel : string) (rq : Request) : list Turn :=
  [ user_turn rq.2; assistant_turn (reply (process_message rq.1 rq.2 sel)) ].

(** A successful [submit]: the text is not empty and the call to the
    SDK, with the assembly of its response, returns. *)
Definition successful (sel : string) (rq : Request) : Prop :=
  rq.2 ≠ "" ∧ ∃ response, process_message rq.1 rq.2 sel = Returns response.

(** An interaction other than a choice in the select box. *)
Definition keeps_selection (x : Agent * Interaction) : Prop :=
  match x.2 with
  | SelectModel _ => False
  | Clear | Submit _ => True
  end.

End Controller.

(** ** Sample agents *)

Module Samples.
Import Config Assembly.

Definition text_block (s : string) : ContentBlock :=
  {| block_text := Some (PyStr s) |}.

Definition text_message (s : string) : SdkMessage :=
  {| msg_content := Some (ContentList [ text_block s ]) |}.


(** An agent that answers nothing. *)
Definition silent : Agent := λ _ _, {| events := []; failure := None |}.

(** Two events, with one text segment each. *)
Definition two_events : Agent := λ _ _,
  {| events := [ text_message "A"; text_message "B" ]; failure := None |}.

(** One event, then the connection breaks. *)
Definition broken : Agent := λ _ _,
  {| events := [ text_message "A" ];
     failure := Some (mkExc "CLIConnectionError" "Not connected") |}.

(** A segment whose [text] is [None]. *)
Definition malformed : Agent := λ _ _,
  {| events :=
       [ {| msg_content :=
              Some (ContentList [ {| block_text := Some (PyOther "NoneType") |} ]) |} ];
     failure := None |}.

(** An agent that answers with the model of the options it is given. *)
Definition echo_model : Agent := λ options _,
  {| events := [ text_message (Config.model options) ]; failure := None |}.

(** A stream that yields nothing and raises [e]. *)
Definition raising (e : PyException) : Agent := λ _ _,
  {| events := []; failure := Some e |}.

(** A stream of one event with the text [s]. *)
Definition saying (s : string) : Agent := λ _ _,
  {| events := [ text_message s ]; failure := None |}.

End Samples.

(** ** Notions used to state properties of the script *)

Module Observations.
Import Config Assembly Script Controller.

(** A block that has no [text] attribute. *)
Definition textless_block (b : ContentBlock) : bool :=
  match block_text b with
  | None => true
  | Some _ => false
  end.

(** An event in which the loop of [process_message] finds no [text]
    to read: no [content], a [content] that is not a list and has no
    [text], or a list none of whose elements has one. *)
Definition textless (m : SdkMessage) : bool :=
  match msg_content m with
  | None => true
  | Some (ContentObj None) => true
  | Some (ContentObj (Some _)) => false
  | Some (ContentList blocks) => forallb textless_block blocks
  end.

(** A Transcript made of exchanges: user, assistant, user, assistant... *)
Definition alternating (l : list Turn) : Prop :=
  ∃ k : nat, role <$> l = mjoin (replicate k [ "user"; "assistant" ]).

(** An interaction other than a click on "Clear Chat History". *)
Definition keeps_history (x : Agent * Interaction) : Prop :=
  match x.2 with
  | Clear => False
  | SelectModel _ | Submit _ => True
  end.

(** The name of a tool says it comes from an MCP server, or from the
    Playwright server. *)
Definition is_mcp_tool (tool : string) : bool := String.prefix "mcp__" tool.

Definition is_playwright_tool (tool : string) : bool :=
  String.prefix "mcp__Playwright__" tool.

(** An interaction during which no exception other than an instance of
    [Exception] leaves the call. *)
Definition contained (x : Event) : Prop := leaving x = None.

End Observations.

(** ** What the script draws *)

Module Page.
Import Config Assembly Script.

(** The elements the script puts on the page, by the call that makes
    them.  [Sidebar] and [ChatMessage] are containers
    ([with st.sidebar:], [with st.chat_message(name):]).  Texts are the
    bytes of the source file (UTF-8). *)
#[local] Unset Elimination Schemes.
Inductive Element :=
  | Title (body : string)
  | Subheader (body : string)
  | Caption (body : string)
  | Markdown (body : string)
  | Error (body : string)
  | Divider
  | SelectboxEl (label : string) (options : list string) (index : nat)
  | ButtonEl (label : string)
  | ChatInputEl (placeholder : string)
  | Sidebar (children : list Element)
  | ChatMessage (name : string) (children : list Element).
#[local] Set Elimination Schemes.

(** Computations of the script with the page: the session state as in
    [St], and the elements drawn so far in the current container. *)
Record Ui (A : Type) : Type := mkUi {
  run_ui : SessionState → list Element → outcome A * SessionState * list Element
}.
Arguments mkUi {A} run_ui.
Arguments run_ui {A} _ _ _.

#[global] Instance Ui_ret : MRet Ui := λ _ a, mkUi (λ ss pg, (Normal a, ss, pg)).
#[global] Instance Ui_bind : MBind Ui := λ _ _ f m,
  mkUi (λ ss pg,
    match run_ui m ss pg with
    | (Normal a, ss', pg') => run_ui (f a) ss' pg'
    | (Raised e, ss', pg') => (Raised e, ss', pg')
    | (RaisedBase b, ss', pg') => (RaisedBase b, ss', pg')
    | (RerunRequested, ss', pg') => (RerunRequested, ss', pg')
    end).

(** A computation on the session alone: it draws nothing. *)
Definition session_op {A} (m : St A) : Ui A :=
  mkUi (λ ss pg, (run m ss, pg)).

(** A call that draws one element, at the end of the current container. *)
Definition draw (el : Element) : Ui unit :=
  mkUi (λ ss pg, (Normal (), ss, (pg ++ [el])%list)).

(** [with container: body]: what [body] draws goes into the container,
    which is itself drawn in the current one, also when [body] is left
    by an exception or a rerun. *)
Definition within {A} (container : list Element → Element) (body : Ui A) : Ui A :=
  mkUi (λ ss pg,
    match run_ui body ss [] with
    | (r, children) => (r, (pg ++ [container children])%list)
    end).

(** [try: body / except Exception as e: handler(e)]; what [body] drew
    before it raised stays. *)
Definition try_except_ui {A} (body : Ui A) (handler : PyException → Ui A) : Ui A :=
  mkUi (λ ss pg,
    match run_ui body ss pg with
    | (Raised e, ss', pg') => run_ui (handler e) ss' pg'
    | r => r
    end).

(** [for x in l: body(x)] *)
Fixpoint for_each {A} (l : list A) (body : A → Ui unit) : Ui unit :=
  match l with
  | [] => mret ()
  | x :: rest => body x;; for_each rest body
  end.

(** The Markdown text of lines 215-220. *)
Definition subagents_markdown : string := "
    - **youtube-analyst**: Analyzes YouTube channel performance
    - **researcher**: Performs deep research and generates reports
    - **documentation-writer**: Creates technical documentation
    - **events_agent**: Gathers upcoming AI events in the Bay Area
    ".

(** [with st.sidebar: ...], lines 201-230. *)
Definition sidebar (w : Widgets) : Ui unit :=
  within Sidebar
    (draw (Title "⚙️ Settings");;
     draw (SelectboxEl "Select Model" model_options 0);;
     let model_option := selectbox w in
     session_op (set_model model_option);;
     draw Divider;;
     draw (Subheader "📋 Available Subagents");;
     draw (Markdown subagents_markdown);;
     draw Divider;;
     draw (ButtonEl "🗑️ Clear Chat History");;
     (if button w
      then session_op (set_messages []);; session_op st_rerun
      else mret ());;
     draw Divider;;
     draw (Caption "Powered by Claude Agent SDK")).

(** Title and caption of the main area, lines 234-235. *)
Definition header : Ui unit :=
  draw (Title "🤖 Kaya - Your Personal Assistant");;
  m ← session_op get_model;
  draw (Caption ("Using model: " +:+ m)).

(** The loop that displays the chat history, lines 238-240. *)
Definition history : Ui unit :=
  msgs ← session_op get_messages;
  for_each msgs (λ message,
    within (ChatMessage (role message)) (draw (Markdown (content message)))).

(** The body of [if prompt := st.chat_input(...)], lines 244-266, with
    what it draws, for a call that raises nothing but instances of
    [Exception] (as [chat]).  [st.spinner] shows its text only while its
    block runs and leaves nothing on the page. *)
Definition chat_page (agent : Agent) (prompt : string) : Ui unit :=
  session_op (messages_append {| role := "user"; content := prompt |});;
  within (ChatMessage "user") (draw (Markdown prompt));;
  within (ChatMessage "assistant")
    (try_except_ui
       (m ← session_op get_model;
        response ← session_op (call (process_message agent prompt m));
        draw (Markdown response);;
        session_op (messages_append {| role := "assistant"; content := response |}))
       (λ e,
        let error_msg := "Error: " +:+ exc_str e in
        draw (Error error_msg);;
        session_op (messages_append {| role := "assistant"; content := error_msg |}))).

(** The script with its drawing calls, top to bottom.
    [st.set_page_config] (lines 22-26) sets the title of the browser tab
    and the layout, not the content of the page. *)
Definition script_page (agent : Agent) (w : Widgets) : Ui unit :=
  session_op initialize_session_state;;
  sidebar w;;
  header;;
  history;;
  draw (ChatInputEl "What can I help you with today?");;
  let prompt := chat_input w in
  if truthy prompt then chat_page agent (default "" prompt) else mret ().

(** Streamlit shows the page of the last execution: after [st.rerun()]
    the script runs again and what it draws replaces the page. *)
Definition execute_page (agent : Agent) (w : Widgets) (ss : SessionState)
    : outcome unit * SessionState * list Element :=
  match run_ui (script_page agent w) ss [] with
  | (RerunRequested, ss', _) => run_ui (script_page agent (at_rest w)) ss' []
  | r => r
  end.

(** The page an execution ends with, and the session it leaves. *)
Definition page_of (r : outcome unit * SessionState * list Element) : list Element :=
  r.2.

Definition session_of (r : outcome unit * SessionState * list Element) : SessionState :=
  r.1.2.

(** The chat messages a page shows in its main area, as Turns: the name
    of the message and its text, drawn as Markdown or as an error. *)
Definition shown (el : Element) : list Turn :=
  match el with
  | ChatMessage name [Markdown body] => [ {| role := name; content := body |} ]
  | ChatMessage name [Error body] => [ {| role := name; content := body |} ]
  | _ => []
  end.

Definition chat_shown (pg : list Element) : list Turn := flat_map shown pg.

(** A chat message drawn as an error box. *)
Definition is_error_box (el : Element) : bool :=
  match el with
  | ChatMessage _ [Error _] => true
  | _ => false
  end.

(** How the history loop draws a Turn. *)
Definition history_message (t : Turn) : Element :=
  ChatMessage (role t) [Markdown (content t)].

(** The content of the sidebar when the button was not clicked, and
    what precedes the rerun when it was. *)
Definition sidebar_until_button : list Element :=
  [ Title "⚙️ Settings";
    SelectboxEl "Select Model" model_options 0;
    Divider;
    Subheader "📋 Available Subagents";
    Markdown subagents_markdown;
    Divider;
    ButtonEl "🗑️ Clear Chat History" ].

Definition sidebar_full : list Element :=
  sidebar_until_button ++ [ Divider; Caption "Powered by Claude Agent SDK" ].

(** The page down to the chat input, for the model [sel] and the
    history [l]. *)
Definition main_page (sel : string) (l : list Turn) : list Element :=
  [ Sidebar sidebar_full;
    Title "🤖 Kaya - Your Personal Assistant";
    Caption ("Using model: " +:+ sel) ]
  ++ (history_message <$> l)
  ++ [ ChatInputEl "What can I help you with today?" ].

(** How the reply to a request is drawn in the execution that gets it:
    line 259 or line 265. *)
Definition reply_box (r : result string) : Element :=
  match r with
  | Returns response => Markdown response
  | Raises e => Error ("Error: " +:+ exc_str e)
  end.

End Page.

(** * Properties *)

Section AssemblyFacts.
Import Config Assembly.

Lemma string_app_cons (a : Ascii.ascii) (s t : string) :
  String a s +:+ t = String a (s +:+ t).
Proof. reflexivity. Qed.

Lemma string_app_assoc (s1 s2 s3 : string) :
  (s1 +:+ s2) +:+ s3 = s1 +:+ (s2 +:+ s3).
Proof.
  induction s1 as [|a s1 IH]; [done|].
  by rewrite !string_app_cons, IH.
Qed.

Lemma string_app_nil_r (s : string) : s +:+ "" = s.
Proof.
  induction s as [|a s IH]; [done|].
  by rewrite string_app_cons, IH.
Qed.

Lemma concat_strings_cons (s : string) (l : list string) :
  concat_strings (s :: l) = s +:+ concat_strings l.
Proof. done. Qed.

Lemma concat_strings_app (l1 l2 : list string) :
  concat_strings (l1 ++ l2) = concat_strings l1 +:+ concat_strings l2.
Proof.
  induction l1 as [|s l1 IH]; [done|].
  rewrite <- app_comm_cons, !concat_strings_cons, IH.
  by rewrite string_app_assoc.
Qed.

(** The inner loop appends the texts of the segments to the accumulator. *)
Lemma for_content_block_texts (blocks : list ContentBlock) (acc : string) :
  Forall (λ b, text_ok (block_text b)) blocks →
  for_content_block blocks acc
  = Returns (acc +:+ concat_strings (flat_map segment_text blocks)).
Proof.
  intros Hok. revert acc.
  induction Hok as [|b blocks Hb _ IH]; intros acc.
  - cbn. by rewrite string_app_nil_r.
  - cbn [for_content_block flat_map]. unfold segment_text at 1.
    destruct (block_text b) as [[s|ty]|]; cbn in Hb; [| done |].
    + simpl. rewrite IH. by rewrite string_app_assoc.
    + simpl. apply IH.
Qed.

Lemma extract_text_texts (m : SdkMessage) (acc : string) :
  event_ok m →
  extract_text m acc = Returns (acc +:+ concat_strings (event_texts m)).
Proof.
  unfold event_ok, extract_text, event_texts.
  destruct (msg_content m) as [[blocks|[[s|ty]|]]|]; cbn; intros Hok.
  - by apply for_content_block_texts.
  - by rewrite string_app_nil_r.
  - done.
  - by rewrite string_app_nil_r.
  - by rewrite string_app_nil_r.
Qed.

(** The outer loop, on a stream that ends normally. *)
Lemma receive_response_texts (evs : list SdkMessage) (acc : string) :
  Forall event_ok evs →
  receive_response evs None acc = Returns (acc +:+ spec_text evs).
Proof.
  intros Hok. revert acc.
  induction Hok as [|m evs Hm _ IH]; intros acc.
  - cbn. by rewrite string_app_nil_r.
  - cbn [receive_response]. rewrite (extract_text_texts _ _ Hm). cbn.
    rewrite IH. unfold spec_text. cbn [flat_map].
    by rewrite concat_strings_app, string_app_assoc.
Qed.

Lemma process_message_texts (agent : Agent) (user_input model : string) :
  is_response (agent (get_claude_options model) user_input) →
  process_message agent user_input model
  = Returns (spec_text (events (agent (get_claude_options model) user_input))).
Proof.
  intros [Hend Hok]. unfold process_message. cbv zeta.
  rewrite Hend. by rewrite receive_response_texts.
Qed.

End AssemblyFacts.

(** ** One execution of the script, computed *)

Section ScriptFacts.
Import Config Assembly Script Controller.

Local Opaque process_message.

(** No click, nothing sent: the script only initialises the session and
    stores the model. *)
Lemma script_at_rest (agent : Agent) (w : Widgets) (ss : SessionState) :
  button w = false →
  truthy (chat_input w) = false →
  run (script agent w) ss = (Normal (), settled (selectbox w) (transcript ss) ss).
Proof.
  destruct w as [sel b ci], ss as [[l|] [c|] [m|]]; simpl;
    intros -> ->; reflexivity.
Qed.

(** A click on the button: the list is replaced by an empty one and the
    execution is abandoned. *)
Lemma script_clear (agent : Agent) (w : Widgets) (ss : SessionState) :
  button w = true →
  run (script agent w) ss = (RerunRequested, settled (selectbox w) [] ss).
Proof.
  destruct w as [sel b ci], ss as [[l|] [c|] [m|]]; simpl;
    intros ->; reflexivity.
Qed.

(** A text sent: one user Turn, then one assistant Turn. *)
Lemma script_chat (agent : Agent) (w : Widgets) (ss : SessionState) (p : string) :
  button w = false →
  chat_input w = Some p →
  p ≠ "" →
  run (script agent w) ss =
    (Normal (),
     settled (selectbox w)
       (transcript ss ++
          [ user_turn p;
            assistant_turn (reply (process_message agent p (selectbox w))) ])
       ss).
Proof.
  destruct w as [sel b ci]; simpl. intros -> -> Hp.
  destruct p as [|a p]; [done|].
  destruct ss as [[l|] [c|] [m|]]; unfold settled, transcript; simpl;
    destruct (process_message agent (String a p) sel) as [r|e]; simpl;
    by rewrite <- ?app_assoc.
Qed.

(** The same three cases for a call that [base] may leave: [base]
    matters only when a text is sent. *)
Lemma script_under_at_rest (base : option PyBaseException) (agent : Agent)
    (w : Widgets) (ss : SessionState) :
  button w = false →
  truthy (chat_input w) = false →
  run (script_under base agent w) ss
  = (Normal (), settled (selectbox w) (transcript ss) ss).
Proof.
  destruct w as [sel b ci], ss as [[l|] [c|] [m|]]; simpl;
    intros -> ->; reflexivity.
Qed.

Lemma script_under_clear (base : option PyBaseException) (agent : Agent)
    (w : Widgets) (ss : SessionState) :
  button w = true →
  run (script_under base agent w) ss
  = (RerunRequested, settled (selectbox w) [] ss).
Proof.
  destruct w as [sel b ci], ss as [[l|] [c|] [m|]]; simpl;
    intros ->; reflexivity.
Qed.

(** A text sent while the call is left by an exception that is not an
    instance of [Exception]: the user Turn is there, the handler is not
    entered and the exception leaves the script. *)
Lemma script_under_escape (b : PyBaseException) (agent : Agent) (w : Widgets)
    (ss : SessionState) (p : string) :
  button w = false →
  chat_input w = Some p →
  p ≠ "" →
  run (script_under (Some b) agent w) ss
  = (RaisedBase b, settled (selectbox w) (transcript ss ++ [ user_turn p ]) ss).
Proof.
  destruct w as [sel bt ci]; simpl. intros -> -> Hp.
  destruct p as [|a p]; [done|].
  by destruct ss as [[l|] [c|] [m|]].
Qed.

Lemma execute_eq (agent : Agent) (w : Widgets) (ss : SessionState) :
  execute agent w ss =
    match run (script agent w) ss with
    | (RerunRequested, ss') => run (script agent (at_rest w)) ss'
    | r => r
    end.
Proof. reflexivity. Qed.

Lemma execute_under_None (agent : Agent) (w : Widgets) (ss : SessionState) :
  execute_under None agent w ss = execute agent w ss.
Proof. reflexivity. Qed.

(** The execution that follows [st.rerun()] asks for no further rerun. *)
Lemma rerun_settles (agent : Agent) (w : Widgets) (ss : SessionState) :
  (run (script agent (at_rest w)) ss).1 = Normal ().
Proof. by rewrite script_at_rest. Qed.

(** When the call raises nothing but instances of [Exception], the
    script lets no exception out and, once Streamlit has served its
    request for a rerun, ends normally. *)
Lemma execute_normal (agent : Agent) (w : Widgets) (ss : SessionState) :
  (execute agent w ss).1 = Normal ().
Proof.
  rewrite execute_eq. destruct (button w) eqn:Hb.
  - rewrite script_clear by done. apply rerun_settles.
  - destruct (chat_input w) as [[|a p]|] eqn:Hp.
    + rewrite script_at_rest; [done..|by rewrite Hp].
    + by rewrite (script_chat _ _ _ (String a p)).
    + rewrite script_at_rest; [done..|by rewrite Hp].
Qed.

End ScriptFacts.

(** ** The three interactions, computed *)

Section ControllerFacts.
Import Config Assembly Script Controller.

Lemma select_model_eq (agent : Agent) (name : string) (app : App) :
  select_model agent name app =
    (Normal (),
     {| session := settled name (turns app) (session app); selected := name |}).
Proof.
  unfold select_model, interact, interact_under.
  rewrite execute_under_None, execute_eq.
  by rewrite script_at_rest.
Qed.

Lemma clear_eq (agent : Agent) (app : App) :
  clear agent app =
    (Normal (),
     {| session := settled (selected app) [] (session app);
        selected := selected app |}).
Proof.
  unfold clear, interact, interact_under.
  rewrite execute_under_None, execute_eq.
  rewrite script_clear by done.
  rewrite script_at_rest by done.
  unfold settled, transcript; simpl. by destruct (client (session app)).
Qed.

Lemma submit_empty_eq (agent : Agent) (app : App) :
  submit agent "" app =
    (Normal (),
     {| session := settled (selected app) (turns app) (session app);
        selected := selected app |}).
Proof.
  unfold submit, submit_under, interact_under.
  rewrite execute_under_None, execute_eq.
  by rewrite script_at_rest.
Qed.

Lemma submit_eq (agent : Agent) (user_text : string) (app : App) :
  user_text ≠ "" →
  submit agent user_text app =
    (Normal (),
     {| session :=
          settled (selected app)
            (turns app ++
               [ user_turn user_text;
                 assistant_turn
                   (reply (process_message agent user_text (selected app))) ])
            (session app);
        selected := selected app |}).
Proof.
  intros Hne. unfold submit, submit_under, interact_under.
  rewrite execute_under_None, execute_eq.
  by rewrite (script_chat _ _ _ user_text).
Qed.

(** A text sent while the call is left by an exception that is not an
    instance of [Exception]. *)
Lemma submit_under_escape (b : PyBaseException) (agent : Agent)
    (user_text : string) (app : App) :
  user_text ≠ "" →
  submit_under (Some b) agent user_text app =
    (RaisedBase b,
     {| session :=
          settled (selected app) (turns app ++ [ user_turn user_text ])
            (session app);
        selected := selected app |}).
Proof.
  intros Hne. unfold submit_under, interact_under, execute_under.
  by rewrite (script_under_escape _ _ _ _ user_text).
Qed.

Lemma submit_under_None (agent : Agent) (user_text : string) (app : App) :
  submit_under None agent user_text app = submit agent user_text app.
Proof. reflexivity. Qed.

(** What the attempt is decides what [base] and the coroutine were. *)
Lemma attempt_of_exception {A} (base : option PyBaseException) (r : result A)
    (e : PyException) :
  attempt_of base r = RaisedException e → base = None ∧ r = Raises e.
Proof. destruct base, r; simpl; intros [=]; by subst. Qed.

Lemma turns_settled (m : string) (l : list Turn) (ss : SessionState) (sel : string) :
  turns {| session := settled m l ss; selected := sel |} = l.
Proof. reflexivity. Qed.

End ControllerFacts.

(** * The configuration *)

Section ConfigClaims.
Import Config.

Lemma agents_lookup (m name : string) (d : AgentDefinition) :
  agents (get_claude_options m) !! name = Some d →
  (name = "youtube-analyst" ∧ d = youtube_analyst)
  ∨ (name = "researcher" ∧ d = researcher)
  ∨ (name = "events_agent" ∧ d = events_agent).
Proof.
  cbn [agents get_claude_options].
  rewrite !lookup_insert_Some, lookup_empty.
  intros [[<- <-]|[_ [[<- <-]|[_ [[<- <-]|[_ ?]]]]]]; by eauto.
Qed.

Lemma file_tools_allowed : file_tools ⊆ top_level_tools.
Proof. apply (bool_decide_unpack _). by vm_compute. Qed.

Lemma playwright_tools_allowed : playwright_tools ⊆ top_level_tools.
Proof. intros x Hx. apply elem_of_app. by right. Qed.

Lemma web_tools_allowed : [ "WebSearch"; "WebFetch" ] ⊆ top_level_tools.
Proof. apply (bool_decide_unpack _). by vm_compute. Qed.

(** C9: whatever the model, the subagents of the configuration built by
    [get_claude_options] are exactly youtube-analyst, researcher and
    events_agent; no subagent is named documentation-writer, although
    the sidebar lists that name. *)
Theorem C9_declared_subagents (m : string) :
  dom (agents (get_claude_options m))
    = ({[ "youtube-analyst"; "researcher"; "events_agent" ]} : gset string)
  ∧ agents (get_claude_options m) !! "documentation-writer" = None
  ∧ "documentation-writer" ∈ sidebar_subagents.
Proof.
  cbn [agents get_claude_options]. split; [|split].
  - rewrite !dom_insert_L, dom_empty_L. set_solver.
  - by rewrite !lookup_insert_ne, lookup_empty.
  - unfold sidebar_subagents. set_solver.
Qed.

(** C10: whatever the model, the tools of every subagent of the
    configuration are among the tools the configuration allows at top
    level. *)
Theorem C10_subagent_tools_allowed (m name : string) (d : AgentDefinition) :
  agents (get_claude_options m) !! name = Some d →
  tools d ⊆ allowed_tools (get_claude_options m).
Proof.
  intros Hd. cbn [allowed_tools get_claude_options].
  destruct (agents_lookup _ _ _ Hd) as [[_ ->]|[[_ ->]|[_ ->]]];
    cbn [tools youtube_analyst researcher events_agent];
    intros x [Hx|Hx]%elem_of_app;
    eauto using file_tools_allowed, playwright_tools_allowed, web_tools_allowed.
Qed.

Lemma C10_witness :
  agents (get_claude_options "opus") !! "researcher" = Some researcher
  ∧ tools researcher ⊆ allowed_tools (get_claude_options "opus").
Proof.
  assert (H : agents (get_claude_options "opus") !! "researcher" = Some researcher).
  { cbn [agents get_claude_options].
    rewrite lookup_insert_ne by done. apply lookup_insert_eq. }
  split; [exact H|].
  exact (C10_subagent_tools_allowed "opus" "researcher" researcher H).
Defined.

End ConfigClaims.

(** * Clearing, selecting a model, sending nothing *)

Section ControllerClaims.
Import Config Assembly Script Controller Samples.

(** C7: [clear] ends normally with an empty Transcript, whatever the
    Transcript held before. *)
Theorem C7_clear_empties_transcript (agent : Agent) (app : App) :
  (clear agent app).1 = Normal ()
  ∧ turns (clear agent app).2 = []
  ∧ messages (session (clear agent app).2) = Some [].
Proof. by rewrite clear_eq. Qed.

(** C8: [select_model] leaves the Transcript as it was; what it changes
    is the model later [submit]s use. *)
Theorem C8_select_model_keeps_transcript (agent : Agent) (name : string) (app : App) :
  turns (select_model agent name app).2 = turns app
  ∧ model (session (select_model agent name app).2) = Some name
  ∧ selected (select_model agent name app).2 = name.
Proof. by rewrite select_model_eq. Qed.

(** C4, as stated, fails: sending the empty text raises nothing, so in
    particular no InvalidInput. *)
Lemma C4_empty_text_raises_nothing :
  ¬ ∃ e : PyException, (submit silent "" fresh_app).1 = Raised e.
Proof. rewrite submit_empty_eq. by intros [e ?]. Qed.

(** C4, amended: for the empty text [submit] does nothing and reports
    nothing: it ends normally, without a failure, and the Transcript is
    unchanged (no user Turn, no assistant Turn). *)
Theorem C4_empty_text_is_ignored (agent : Agent) (app : App) :
  (submit agent "" app).1 = Normal ()
  ∧ turns (submit agent "" app).2 = turns app.
Proof. by rewrite submit_empty_eq. Qed.



End ControllerClaims.

(** * Sending a text *)

Section SubmitClaims.
Import Config Assembly Script Controller Samples.

(** C1: when the SDK gives a response, the Transcript gains the user
    Turn and then an assistant Turn whose text is the concatenation, in
    arrival order, of the texts of the text-bearing segments of its
    events. *)
Theorem C1_assistant_text_is_concatenation
    (agent : Agent) (user_text : string) (app : App) :
  user_text ≠ "" →
  is_response (agent (get_claude_options (selected app)) user_text) →
  turns (submit agent user_text app).2 =
    (turns app ++
      [ user_turn user_text;
        assistant_turn
          (spec_text (events (agent (get_claude_options (selected app)) user_text))) ])%list.
Proof.
  intros Hne Hresp. rewrite submit_eq by done.
  by rewrite (process_message_texts _ _ _ Hresp).
Qed.

(** Two events carrying "A" and "B": the assistant Turn reads "AB". *)
Lemma C1_two_events_AB :
  "hi" ≠ ""
  ∧ is_response (two_events (get_claude_options (selected fresh_app)) "hi")
  ∧ turns (submit two_events "hi" fresh_app).2
      = [ user_turn "hi"; assistant_turn "AB" ].
Proof.
  assert (Hne : "hi" ≠ "") by done.
  assert (Hresp : is_response
            (two_events (get_claude_options (selected fresh_app)) "hi")).
  { split; [done|]. repeat constructor. }
  split; [exact Hne|]. split; [exact Hresp|].
  exact (C1_assistant_text_is_concatenation two_events "hi" fresh_app Hne Hresp).
Defined.

(** Where an exception of [process_message] comes from: the stream of
    the SDK raised it, or a [text] that is not a string made the
    concatenation raise [TypeError]. *)
Lemma for_content_block_raises (blocks : list ContentBlock) (acc : string)
    (e : PyException) :
  for_content_block blocks acc = Raises e → exc_type e = "TypeError".
Proof.
  revert acc. induction blocks as [|b blocks IH]; intros acc; [done|].
  cbn [for_content_block].
  destruct (block_text b) as [[s|ty]|]; simpl; eauto.
  by intros [= <-].
Qed.

Lemma extract_text_raises (m : SdkMessage) (acc : string) (e : PyException) :
  extract_text m acc = Raises e → exc_type e = "TypeError".
Proof.
  unfold extract_text.
  destruct (msg_content m) as [[blocks|[[s|ty]|]]|]; simpl; try done.
  - apply for_content_block_raises.
  - by intros [= <-].
Qed.

Lemma receive_response_raises (evs : list SdkMessage) (fail : option PyException)
    (acc : string) (e : PyException) :
  receive_response evs fail acc = Raises e →
  fail = Some e ∨ exc_type e = "TypeError".
Proof.
  revert acc. induction evs as [|m evs IH]; intros acc.
  - simpl. destruct fail as [e'|]; [|done]. intros [= ->]. by left.
  - cbn [receive_response].
    destruct (extract_text m acc) as [acc'|e'] eqn:Hm; simpl.
    + apply IH.
    + intros [= ->]. right. by eapply extract_text_raises.
Qed.

(** An exception of the stream reaches the caller when the events
    before it are well formed. *)
Lemma receive_response_failure (evs : list SdkMessage) (e : PyException)
    (acc : string) :
  Forall event_ok evs → receive_response evs (Some e) acc = Raises e.
Proof.
  intros Hok. revert acc.
  induction Hok as [|m evs Hm _ IH]; intros acc; [done|].
  cbn [receive_response]. rewrite (extract_text_texts _ _ Hm). simpl. apply IH.
Qed.

(** The text of an error Turn starts with "Error: ". *)
Lemma prefix_app (s t : string) : String.prefix s (s +:+ t) = true.
Proof.
  induction s as [|a s IH]; [by destruct t|].
  rewrite string_app_cons. simpl. by destruct (Ascii.ascii_dec a a).
Qed.

(** C2, as stated, fails: an exception of the call that is not an
    instance of [Exception] (here the cancellation of the task) is not
    caught.  It leaves [submit], and the Transcript is left with the
    user Turn and no assistant Turn. *)
Lemma C2_cancelled_call_not_caught :
  (submit_under (Some (mkBase "CancelledError" "")) silent "hi" fresh_app).1
    = RaisedBase (mkBase "CancelledError" "")
  ∧ turns (submit_under (Some (mkBase "CancelledError" "")) silent "hi"
             fresh_app).2
    = [ user_turn "hi" ].
Proof. by rewrite submit_under_escape. Qed.

(** C2, amended: an instance of [Exception] raised by the call to the
    SDK or by the assembly of its response does not leave [submit]:
    [submit] ends normally, the Transcript gains the user Turn and an
    assistant Turn whose text is "Error: " followed by the text of the
    exception, and the next [submit] is served as any other. *)
Theorem C2_exception_becomes_error_turn
    (base : option PyBaseException) (agent : Agent) (user_text : string)
    (app : App) (e : PyException) :
  user_text ≠ "" →
  attempt_of base (process_message agent user_text (selected app))
    = RaisedException e →
  (submit_under base agent user_text app).1 = Normal ()
  ∧ turns (submit_under base agent user_text app).2 =
      (turns app ++
         [ user_turn user_text; assistant_turn ("Error: " +:+ exc_str e) ])%list
  ∧ (∃ t : Turn,
       last (turns (submit_under base agent user_text app).2) = Some t
       ∧ role t = "assistant"
       ∧ String.prefix "Error: " (content t) = true)
  ∧ ∀ (agent' : Agent) (text' : string),
      text' ≠ "" →
      (submit agent' text' (submit_under base agent user_text app).2).1 = Normal ()
      ∧ turns (submit agent' text' (submit_under base agent user_text app).2).2 =
          (turns (submit_under base agent user_text app).2 ++
             [ user_turn text';
               assistant_turn
                 (reply (process_message agent' text' (selected app))) ])%list.
Proof.
  intros Hne [-> He]%attempt_of_exception.
  rewrite submit_under_None, submit_eq by done. rewrite He.
  cbn [fst snd reply]. rewrite turns_settled.
  split; [done|]. split; [done|]. split.
  - exists (assistant_turn ("Error: " +:+ exc_str e)).
    split; [|split; [done|apply prefix_app]].
    rewrite (app_assoc (turns app) [user_turn user_text]
               [assistant_turn ("Error: " +:+ exc_str e)] : (_ ++ [_; _])%list = _).
    apply last_snoc.
  - intros agent' text' Hne'. by rewrite submit_eq.
Qed.

(** A segment whose [text] is [None]: the concatenation raises, and the
    Turn carries the text of the [TypeError]. *)
Example malformed_text_error :
  turns (submit malformed "hi" fresh_app).2
  = [ user_turn "hi";
      assistant_turn
        ("Error: can only concatenate str (not " +:+ dquote +:+ "NoneType"
           +:+ dquote +:+ ") to str") ].
Proof. reflexivity. Qed.

(** The connection breaks after a first event, and the session goes on. *)
Lemma C2_broken_connection :
  "hi" ≠ ""
  ∧ attempt_of None (process_message broken "hi" (selected fresh_app))
      = RaisedException (mkExc "CLIConnectionError" "Not connected")
  ∧ turns (submit_under None broken "hi" fresh_app).2
      = [ user_turn "hi"; assistant_turn "Error: Not connected" ]
  ∧ turns (submit two_events "again" (submit_under None broken "hi" fresh_app).2).2
      = [ user_turn "hi"; assistant_turn "Error: Not connected";
          user_turn "again"; assistant_turn "AB" ].
Proof.
  assert (Hne : "hi" ≠ "") by done.
  assert (He : attempt_of None (process_message broken "hi" (selected fresh_app))
               = RaisedException (mkExc "CLIConnectionError" "Not connected"))
    by done.
  destruct (C2_exception_becomes_error_turn None broken "hi" fresh_app _ Hne He)
    as (_ & Hturns & _ & Hnext).
  split; [exact Hne|]. split; [exact He|]. split; [exact Hturns|].
  destruct (Hnext two_events "again") as [_ ->]; [done|].
  by rewrite Hturns.
Defined.

(** [submit] leaves the select box alone. *)
Lemma submit_selected (agent : Agent) (user_text : string) (app : App) :
  selected (submit agent user_text app).2 = selected app.
Proof. reflexivity. Qed.

Lemma submit_all_cons (rq : Request) (reqs : list Request) (app : App) :
  submit_all (rq :: reqs) app = submit_all reqs (submit rq.1 rq.2 app).2.
Proof. reflexivity. Qed.

(** A sequence of non-empty texts: each adds its two Turns, in order. *)
Lemma submit_all_turns (reqs : list Request) (app : App) :
  Forall (λ rq : Request, rq.2 ≠ "") reqs →
  turns (submit_all reqs app)
    = (turns app ++ flat_map (exchange (selected app)) reqs)%list
  ∧ selected (submit_all reqs app) = selected app.
Proof.
  intros Hne. revert app.
  induction Hne as [|[agent text] reqs Htext _ IH]; intros app.
  - cbn. by rewrite app_nil_r.
  - rewrite submit_all_cons. cbn [fst snd flat_map] in *.
    destruct (IH (submit agent text app).2) as [-> ->].
    rewrite submit_selected. split; [|done].
    rewrite submit_eq by done. cbn [snd]. rewrite turns_settled.
    by rewrite <- app_assoc.
Qed.

Lemma exchange_roles (sel : string) (reqs : list Request) :
  role <$> flat_map (exchange sel) reqs
  = mjoin (replicate (length reqs) [ "user"; "assistant" ]).
Proof.
  induction reqs as [|rq reqs IH]; [done|].
  cbn [flat_map length replicate]. rewrite fmap_app, IH. reflexivity.
Qed.

Lemma exchange_length (sel : string) (reqs : list Request) :
  length (flat_map (exchange sel) reqs) = 2 * length reqs.
Proof.
  induction reqs as [|rq reqs IH]; [done|].
  cbn [flat_map]. rewrite length_app, IH. cbn [exchange length]. lia.
Qed.

(** C3: after N successful [submit]s from an empty Transcript, the
    Transcript has 2N Turns, their roles are user, assistant, user,
    assistant, ..., and they are, request after request in the order of
    arrival, the user Turn of the request followed by its assistant
    Turn. *)
Theorem C3_transcript_alternates (reqs : list Request) (app : App) :
  turns app = [] →
  Forall (successful (selected app)) reqs →
  length (turns (submit_all reqs app)) = 2 * length reqs
  ∧ role <$> turns (submit_all reqs app)
      = mjoin (replicate (length reqs) [ "user"; "assistant" ])
  ∧ turns (submit_all reqs app) = flat_map (exchange (selected app)) reqs.
Proof.
  intros Hempty Hok.
  assert (Hne : Forall (λ rq : Request, rq.2 ≠ "") reqs).
  { eapply Forall_impl; [exact Hok|]. by intros rq [? _]. }
  destruct (submit_all_turns reqs app Hne) as [-> _].
  rewrite Hempty, app_nil_l.
  split; [apply exchange_length|]. split; [apply exchange_roles|done].
Qed.

(** Two requests from a fresh session. *)
Lemma C3_two_requests :
  turns fresh_app = []
  ∧ Forall (successful (selected fresh_app))
      [ (two_events, "one"); (silent, "two") ]
  ∧ turns (submit_all [ (two_events, "one"); (silent, "two") ] fresh_app)
      = [ user_turn "one"; assistant_turn "AB";
          user_turn "two"; assistant_turn "" ].
Proof.
  assert (Hempty : turns fresh_app = []) by reflexivity.
  assert (Hok : Forall (successful (selected fresh_app))
                  [ (two_events, "one"); (silent, "two") ]).
  { repeat constructor; try done; by eexists. }
  split; [exact Hempty|]. split; [exact Hok|].
  exact (proj2 (proj2
    (C3_transcript_alternates [ (two_events, "one"); (silent, "two") ]
       fresh_app Hempty Hok))).
Defined.

Lemma steps_cons (x : Agent * Interaction) (l : list (Agent * Interaction))
    (app : App) :
  steps (x :: l) app = steps l (step x.1 x.2 app).2.
Proof. reflexivity. Qed.

(** Clearing and sending leave the select box as it is. *)
Lemma steps_selected (l : list (Agent * Interaction)) (app : App) :
  Forall keeps_selection l → selected (steps l app) = selected app.
Proof.
  intros Hl. revert app.
  induction Hl as [|[agent i] l Hi _ IH]; intros app; [done|].
  rewrite steps_cons, IH. cbn [fst snd].
  destruct i as [name| |text]; [done|reflexivity..].
Qed.

(** Every field of the configuration but [model] is the same for all
    models. *)
Lemma get_claude_options_constant (name name' : string) :
  permission_mode (get_claude_options name') = permission_mode (get_claude_options name)
  ∧ setting_sources (get_claude_options name') = setting_sources (get_claude_options name)
  ∧ allowed_tools (get_claude_options name') = allowed_tools (get_claude_options name)
  ∧ agents (get_claude_options name') = agents (get_claude_options name)
  ∧ mcp_servers (get_claude_options name') = mcp_servers (get_claude_options name).
Proof. done. Qed.

(** C5: once [name] has been selected, a [submit] (directly, or after
    any further [submit]s and [clear]s) calls the SDK with the
    configuration [get_claude_options name], built for that request:
    its model is [name], and its other fields are those of the
    configuration for any other model.  The assistant Turn is assembled
    from what the SDK answers to that configuration and the text. *)
Theorem C5_submit_uses_selected_model
    (agent0 agent : Agent) (name : string) (l : list (Agent * Interaction))
    (user_text : string) (app : App) :
  user_text ≠ "" →
  Forall keeps_selection l →
  turns (submit agent user_text (steps l (select_model agent0 name app).2)).2
    = (turns (steps l (select_model agent0 name app).2) ++
         [ user_turn user_text;
           assistant_turn
             (reply
                (receive_response
                   (events (agent (get_claude_options name) user_text))
                   (failure (agent (get_claude_options name) user_text))
                   "")) ])%list
  ∧ Config.model (get_claude_options name) = name
  ∧ ∀ name' : string,
      permission_mode (get_claude_options name')
        = permission_mode (get_claude_options name)
      ∧ setting_sources (get_claude_options name')
        = setting_sources (get_claude_options name)
      ∧ allowed_tools (get_claude_options name')
        = allowed_tools (get_claude_options name)
      ∧ agents (get_claude_options name') = agents (get_claude_options name)
      ∧ mcp_servers (get_claude_options name')
        = mcp_servers (get_claude_options name).
Proof.
  intros Hne Hl. split; [|split; [done|]].
  - rewrite submit_eq by done. cbn [snd]. rewrite turns_settled.
    by rewrite (steps_selected _ _ Hl).
  - intros name'. apply get_claude_options_constant.
Qed.

(** The balanced tier is selected, a text is sent and the history is
    cleared; the next text reaches the SDK with that model. *)
Lemma C5_balanced_tier :
  "hi" ≠ ""
  ∧ Forall keeps_selection [ (two_events, Submit "first"); (silent, Clear) ]
  ∧ turns
      (submit echo_model "hi"
         (steps [ (two_events, Submit "first"); (silent, Clear) ]
            (select_model silent "sonnet"
               {| session := empty_session; selected := "opus" |}).2)).2
    = [ user_turn "hi"; assistant_turn "sonnet" ].
Proof.
  assert (Hne : "hi" ≠ "") by done.
  assert (Hl : Forall keeps_selection
                 [ (two_events, Submit "first"); (silent, Clear) ]).
  { by repeat constructor. }
  split; [exact Hne|]. split; [exact Hl|].
  exact (proj1
    (C5_submit_uses_selected_model silent echo_model "sonnet"
       [ (two_events, Submit "first"); (silent, Clear) ] "hi"
       {| session := empty_session; selected := "opus" |} Hne Hl)).
Defined.

End SubmitClaims.

(** * Further properties of the response assembly *)

Section AssemblyProperties.
Import Config Assembly Script Controller Samples Observations.

Lemma for_content_block_textless (blocks : list ContentBlock) (acc : string) :
  forallb textless_block blocks = true →
  for_content_block blocks acc = Returns acc.
Proof.
  induction blocks as [|b blocks IH]; [done|].
  cbn [forallb for_content_block]. unfold textless_block at 1.
  destruct (block_text b); [done|]. exact IH.
Qed.

Lemma extract_text_textless (m : SdkMessage) (acc : string) :
  textless m = true → extract_text m acc = Returns acc.
Proof.
  unfold textless, extract_text.
  destruct (msg_content m) as [[blocks|[t|]]|]; try done.
  apply for_content_block_textless.
Qed.

(** X1: a stream received in two parts.  Reading the events of
    [evs1 ++ evs2] is reading [evs1] as a stream that ends normally and
    then, if that did not raise, going on with [evs2] from the text
    gathered so far. *)
Theorem X1_receive_response_app
    (evs1 evs2 : list SdkMessage) (fail : option PyException) (acc : string) :
  receive_response (evs1 ++ evs2) fail acc
  = receive_response evs1 None acc ≫= receive_response evs2 fail.
Proof.
  revert acc. induction evs1 as [|m evs1 IH]; intros acc; [done|].
  rewrite <- app_comm_cons. cbn [receive_response].
  destruct (extract_text m acc) as [acc'|e]; [|done].
  apply IH.
Qed.

(** X2: events without text do not count.  Taking out of the stream the
    events in which no [text] attribute is found changes neither the
    text returned nor the exception raised, whatever the other events
    and the end of the stream are. *)
Theorem X2_textless_events_ignored
    (evs : list SdkMessage) (fail : option PyException) (acc : string) :
  receive_response (List.filter (λ m, negb (textless m)) evs) fail acc
  = receive_response evs fail acc.
Proof.
  revert acc. induction evs as [|m evs IH]; intros acc; [done|].
  cbn [List.filter receive_response].
  destruct (textless m) eqn:Hm; cbn [negb].
  - rewrite (extract_text_textless _ _ Hm). apply IH.
  - cbn [receive_response].
    destruct (extract_text m acc) as [acc'|e]; [|done]. apply IH.
Qed.

(** X4: a reply that breaks off is lost.  When the stream raises after
    events that were all well formed, the assistant Turn holds the error
    text alone: none of the text received before the exception is
    recorded. *)
Theorem X4_partial_reply_dropped
    (agent : Agent) (user_text : string) (app : App) (e : PyException) :
  user_text ≠ "" →
  Forall event_ok (events (agent (get_claude_options (selected app)) user_text)) →
  failure (agent (get_claude_options (selected app)) user_text) = Some e →
  turns (submit agent user_text app).2
  = (turns app ++
       [ user_turn user_text; assistant_turn ("Error: " +:+ exc_str e) ])%list.
Proof.
  intros Hne Hok Hfail. rewrite submit_eq by done.
  unfold process_message. cbv zeta. rewrite Hfail.
  by rewrite receive_response_failure.
Qed.

Lemma X4_broken_after_A :
  "hi" ≠ ""
  ∧ Forall event_ok (events (broken (get_claude_options (selected fresh_app)) "hi"))
  ∧ failure (broken (get_claude_options (selected fresh_app)) "hi")
      = Some (mkExc "CLIConnectionError" "Not connected")
  ∧ turns (submit broken "hi" fresh_app).2
      = [ user_turn "hi"; assistant_turn "Error: Not connected" ].
Proof.
  assert (Hne : "hi" ≠ "") by done.
  assert (Hok : Forall event_ok
                  (events (broken (get_claude_options (selected fresh_app)) "hi"))).
  { repeat constructor. }
  assert (Hfail : failure (broken (get_claude_options (selected fresh_app)) "hi")
                  = Some (mkExc "CLIConnectionError" "Not connected")) by done.
  split; [exact Hne|]. split; [exact Hok|]. split; [exact Hfail|].
  exact (X4_partial_reply_dropped broken "hi" fresh_app _ Hne Hok Hfail).
Defined.

(** X5: the first [text] that is not a string ends the reading.  When
    an event raises after well-formed ones, [receive_response] raises
    that exception whatever events follow and however the stream would
    have ended. *)
Theorem X5_first_bad_text_ends_reading
    (pre post : list SdkMessage) (m : SdkMessage)
    (fail : option PyException) (acc : string) (e : PyException) :
  Forall event_ok pre →
  extract_text m (acc +:+ spec_text pre) = Raises e →
  receive_response (pre ++ m :: post) fail acc = Raises e.
Proof.
  intros Hpre. revert acc.
  induction Hpre as [|m' pre Hm' _ IH]; intros acc Hm.
  - cbn [app receive_response]. unfold spec_text in Hm. cbn in Hm.
    rewrite string_app_nil_r in Hm. by rewrite Hm.
  - rewrite <- app_comm_cons. cbn [receive_response].
    rewrite (extract_text_texts _ _ Hm'). cbn [mbind result_bind].
    apply IH. unfold spec_text in *. cbn [flat_map] in Hm.
    by rewrite concat_strings_app, <- string_app_assoc in Hm.
Qed.

Lemma X5_bad_text_in_the_middle :
  Forall event_ok [ text_message "A" ]
  ∧ extract_text
      {| msg_content := Some (ContentObj (Some (PyOther "int"))) |}
      ("" +:+ spec_text [ text_message "A" ])
    = Raises (mkExc "TypeError"
        ("can only concatenate str (not " +:+ dquote +:+ "int" +:+ dquote
           +:+ ") to str"))
  ∧ receive_response
      ([ text_message "A" ]
         ++ {| msg_content := Some (ContentObj (Some (PyOther "int"))) |}
         :: [ text_message "B" ])
      (Some (mkExc "CLIConnectionError" "Not connected")) ""
    = Raises (mkExc "TypeError"
        ("can only concatenate str (not " +:+ dquote +:+ "int" +:+ dquote
           +:+ ") to str")).
Proof.
  assert (Hpre : Forall event_ok [ text_message "A" ]) by repeat constructor.
  assert (Hm : extract_text
      {| msg_content := Some (ContentObj (Some (PyOther "int"))) |}
      ("" +:+ spec_text [ text_message "A" ])
    = Raises (mkExc "TypeError"
        ("can only concatenate str (not " +:+ dquote +:+ "int" +:+ dquote
           +:+ ") to str"))) by reflexivity.
  split; [exact Hpre|]. split; [exact Hm|].
  exact (X5_first_bad_text_ends_reading [ text_message "A" ] [ text_message "B" ]
           _ (Some (mkExc "CLIConnectionError" "Not connected")) "" _ Hpre Hm).
Defined.

End AssemblyProperties.

(** * Further properties of the interactions *)

Section InteractionProperties.
Import Config Assembly Script Controller Samples Observations.

Lemma step_turns (agent : Agent) (i : Interaction) (app : App) :
  turns (step agent i app).2 =
    match i with
    | SelectModel _ => turns app
    | Clear => []
    | Submit "" => turns app
    | Submit text =>
        (turns app ++
           [ user_turn text;
             assistant_turn (reply (process_message agent text (selected app))) ])%list
    end.
Proof.
  destruct i as [name| |[|a text]]; cbn [step].
  - by rewrite select_model_eq.
  - by rewrite clear_eq.
  - by rewrite submit_empty_eq.
  - by rewrite submit_eq.
Qed.

Lemma alternating_nil : alternating [].
Proof. by exists 0. Qed.

Lemma alternating_exchange (l : list Turn) (a b : string) :
  alternating l → alternating (l ++ [ user_turn a; assistant_turn b ]).
Proof.
  intros [k Hk]. exists (S k).
  rewrite fmap_app, Hk, replicate_S_end, join_app. reflexivity.
Qed.

Lemma submit_under_empty (base : option PyBaseException) (agent : Agent)
    (app : App) :
  submit_under base agent "" app = submit agent "" app.
Proof.
  rewrite submit_empty_eq. unfold submit_under, interact_under, execute_under.
  by rewrite script_under_at_rest.
Qed.

Lemma steps_under_cons (x : Event) (l : list Event) (app : App) :
  steps_under (x :: l) app
  = steps_under l (step_under (leaving x) (answering x) (doing x) app).2.
Proof. reflexivity. Qed.

Lemma step_under_None (agent : Agent) (i : Interaction) (app : App) :
  step_under None agent i app = step agent i app.
Proof. by destruct i. Qed.

Lemma alternating_length (l : list Turn) :
  alternating l → Nat.Even (length l).
Proof.
  intros [k Hk]. exists k.
  rewrite <- (length_fmap role l), Hk. clear Hk.
  induction k as [|k IH]; [done|].
  change (length ([ "user"; "assistant" ]
                    ++ mjoin (replicate k [ "user"; "assistant" ]))%list
          = 2 * S k).
  rewrite length_app, IH. cbn [length]. lia.
Qed.

(** X6: what can leave an interaction.  Whatever the session holds
    (even none of its keys), whatever the user does and whatever the
    SDK answers, an interaction ends normally, with no exception
    reaching Streamlit and no rerun pending, in every case but one: a
    non-empty text whose call is left by an exception that is not an
    instance of [Exception]; that exception, and no other, leaves the
    script. *)
Theorem X6_what_leaves_an_interaction
    (base : option PyBaseException) (agent : Agent) (i : Interaction) (app : App) :
  (step_under base agent i app).1 =
    match i, base with
    | Submit (String _ _), Some b => RaisedBase b
    | _, _ => Normal ()
    end.
Proof.
  destruct i as [name| |[|a text]]; cbn [step_under].
  - apply execute_normal.
  - apply execute_normal.
  - rewrite submit_under_empty. apply execute_normal.
  - destruct base as [b|].
    + by rewrite submit_under_escape.
    + apply execute_normal.
Qed.

(** X7: the Transcript stays made of exchanges as long as no exception
    other than an instance of [Exception] leaves a call.  If it is a
    sequence of user/assistant pairs, it still is after any such
    interactions, with replies that succeed or raise an [Exception],
    empty texts, changes of model and clearings in any order. *)
Theorem X7_transcript_stays_alternating (l : list Event) (app : App) :
  alternating (turns app) →
  Forall contained l →
  alternating (turns (steps_under l app)).
Proof.
  intros Halt Hl. revert app Halt.
  induction Hl as [|[base agent i] l Hx _ IH]; intros app Halt; [done|].
  rewrite steps_under_cons. apply IH. unfold contained in Hx.
  cbn [leaving answering doing] in *. subst base.
  rewrite step_under_None, step_turns.
  destruct i as [name| |[|a text]];
    auto using alternating_nil, alternating_exchange.
Qed.

Lemma X7_from_fresh_session :
  alternating (turns fresh_app)
  ∧ Forall contained
      [ mkEvent None broken (Submit "one");
        mkEvent None silent (SelectModel "opus");
        mkEvent None two_events (Submit "two");
        mkEvent None silent (Submit "") ]
  ∧ alternating
      (turns (steps_under
                [ mkEvent None broken (Submit "one");
                  mkEvent None silent (SelectModel "opus");
                  mkEvent None two_events (Submit "two");
                  mkEvent None silent (Submit "") ]
                fresh_app)).
Proof.
  assert (H : alternating (turns fresh_app)) by (by exists 0).
  assert (Hl : Forall contained
      [ mkEvent None broken (Submit "one");
        mkEvent None silent (SelectModel "opus");
        mkEvent None two_events (Submit "two");
        mkEvent None silent (Submit "") ]) by (by repeat constructor).
  split; [exact H|]. split; [|exact (X7_transcript_stays_alternating _ fresh_app H Hl)].
  exact Hl.
Defined.

(** X21: an exception that is not an instance of [Exception] leaves a
    user Turn without its assistant Turn.  When such an exception
    leaves the call for a non-empty text, it leaves [submit] too; the
    Transcript has gained the user Turn alone and is no longer made of
    exchanges; and the Turns of the next request follow that user Turn
    directly. *)
Theorem X21_uncaught_exception_leaves_user_turn
    (b : PyBaseException) (agent : Agent) (user_text : string) (app : App) :
  user_text ≠ "" →
  alternating (turns app) →
  (submit_under (Some b) agent user_text app).1 = RaisedBase b
  ∧ turns (submit_under (Some b) agent user_text app).2
    = (turns app ++ [ user_turn user_text ])%list
  ∧ ¬ alternating (turns (submit_under (Some b) agent user_text app).2)
  ∧ ∀ (agent' : Agent) (text' : string),
      text' ≠ "" →
      turns (submit agent' text' (submit_under (Some b) agent user_text app).2).2
      = (turns app ++
           [ user_turn user_text; user_turn text';
             assistant_turn
               (reply (process_message agent' text' (selected app))) ])%list.
Proof.
  intros Hne Halt. rewrite submit_under_escape by done.
  cbn [fst snd]. rewrite turns_settled.
  split; [done|]. split; [done|]. split.
  - intros Hodd%alternating_length. apply alternating_length in Halt.
    rewrite length_app in Hodd. cbn [length] in Hodd.
    destruct Halt as [k Hk], Hodd as [k' Hk']. lia.
  - intros agent' text' Hne'. rewrite submit_eq by done.
    cbn [snd selected]. rewrite !turns_settled. by rewrite <- app_assoc.
Qed.

Lemma X21_interrupted_request :
  "hi" ≠ ""
  ∧ alternating (turns fresh_app)
  ∧ turns (submit two_events "again"
             (submit_under (Some (mkBase "KeyboardInterrupt" "")) silent "hi"
                fresh_app).2).2
    = [ user_turn "hi"; user_turn "again"; assistant_turn "AB" ].
Proof.
  assert (Hne : "hi" ≠ "") by done.
  assert (Halt : alternating (turns fresh_app)) by (by exists 0).
  split; [exact Hne|]. split; [exact Halt|].
  destruct (X21_uncaught_exception_leaves_user_turn
              (mkBase "KeyboardInterrupt" "") silent "hi" fresh_app Hne Halt)
    as (_ & _ & _ & Hnext).
  exact (Hnext two_events "again" ltac:(done)).
Defined.

(** X8: only a click on "Clear Chat History" removes or changes a
    Turn.  Over interactions that are not such clicks the Transcript
    only grows at its end: what it held is a prefix of what it holds. *)
Theorem X8_history_kept_without_clear
    (l : list (Agent * Interaction)) (app : App) :
  Forall keeps_history l → turns app `prefix_of` turns (steps l app).
Proof.
  intros Hl. revert app.
  induction Hl as [|[agent i] l Hi _ IH]; intros app; [done|].
  rewrite steps_cons. etrans; [|apply IH]. cbn [fst snd].
  rewrite step_turns. unfold keeps_history in Hi. cbn [snd] in Hi.
  destruct i as [name| |[|a text]]; [done|done|done|].
  by apply prefix_app_r.
Qed.

Lemma X8_history_grows :
  Forall keeps_history [ (two_events, Submit "more"); (silent, SelectModel "haiku") ]
  ∧ turns (submit broken "hi" fresh_app).2
      `prefix_of`
    turns (steps [ (two_events, Submit "more"); (silent, SelectModel "haiku") ]
             (submit broken "hi" fresh_app).2).
Proof.
  assert (H : Forall keeps_history
                [ (two_events, Submit "more"); (silent, SelectModel "haiku") ]).
  { by repeat constructor. }
  split; [exact H|].
  exact (X8_history_kept_without_clear _ (submit broken "hi" fresh_app).2 H).
Defined.

(** X9: after any interaction the session is complete and agrees with
    the select box: the keys [messages], [client] and [model] exist,
    and [model] holds the value of the select box, whatever was stored
    under it before (the default "sonnet" of line 34 included). *)
Theorem X9_session_settled (agent : Agent) (i : Interaction) (app : App) :
  is_Some (messages (session (step agent i app).2))
  ∧ is_Some (client (session (step agent i app).2))
  ∧ model (session (step agent i app).2) = Some (selected (step agent i app).2).
Proof.
  destruct i as [name| |[|a text]]; cbn [step].
  - by rewrite select_model_eq.
  - by rewrite clear_eq.
  - by rewrite submit_empty_eq.
  - by rewrite submit_eq.
Qed.

Lemma step_client (agent : Agent) (i : Interaction) (app : App) :
  default None (client (session (step agent i app).2))
  = default None (client (session app)).
Proof.
  destruct i as [name| |[|a text]]; cbn [step].
  - by rewrite select_model_eq.
  - by rewrite clear_eq.
  - by rewrite submit_empty_eq.
  - by rewrite submit_eq.
Qed.

(** X10: the script never stores a client.  Over any interactions the
    value under [client] is the one the session started with, and
    Python's [None] when the key was absent: the client that
    [process_message] opens for a request is not kept. *)
Theorem X10_client_never_stored (l : list (Agent * Interaction)) (app : App) :
  default None (client (session (steps l app)))
  = default None (client (session app)).
Proof.
  revert app. induction l as [|[agent i] l IH]; intros app; [done|].
  rewrite steps_cons, IH. apply step_client.
Qed.

(** X11: the SDK is consulted for a non-empty text only.  Choosing a
    model, clearing the history and sending the empty text give the same
    result whatever the SDK would have answered. *)
Theorem X11_sdk_not_consulted (agent agent' : Agent) (name : string) (app : App) :
  select_model agent name app = select_model agent' name app
  ∧ clear agent app = clear agent' app
  ∧ submit agent "" app = submit agent' "" app.
Proof. by rewrite !select_model_eq, !clear_eq, !submit_empty_eq. Qed.

(** X12: the last choice of model wins.  Choosing a model and then
    another leaves the application as choosing the second one alone. *)
Theorem X12_last_selection_wins
    (agent1 agent2 : Agent) (name1 name2 : string) (app : App) :
  (select_model agent2 name2 (select_model agent1 name1 app).2).2
  = (select_model agent2 name2 app).2.
Proof.
  rewrite !select_model_eq. cbn [snd].
  unfold settled. cbn. by destruct (client (session app)).
Qed.

(** X13: running the script again without any interaction changes
    nothing.  Once the script has run with the widgets at rest, a
    further run with the same widgets leaves the session as it is. *)
Theorem X13_rerun_at_rest_idempotent
    (agent agent' : Agent) (w : Widgets) (ss : SessionState) :
  execute agent' (at_rest w) (execute agent (at_rest w) ss).2
  = execute agent (at_rest w) ss.
Proof.
  rewrite !execute_eq. rewrite !script_at_rest by done.
  unfold settled, transcript. cbn. by destruct (client ss).
Qed.

(** X14: the Transcript does not tell a failure from a reply.  A
    request whose call raises [e] leaves the application exactly as a
    request answered with the text "Error: " followed by [str(e)]. *)
Theorem X14_error_turn_is_plain_text
    (e : PyException) (user_text : string) (app : App) :
  user_text ≠ "" →
  submit (raising e) user_text app
  = submit (saying ("Error: " +:+ exc_str e)) user_text app.
Proof.
  intros Hne. rewrite !submit_eq by done.
  unfold process_message, raising, saying. cbn. reflexivity.
Qed.

Lemma X14_timeout_or_text :
  "hi" ≠ ""
  ∧ submit (raising (mkExc "TimeoutError" "timed out")) "hi" fresh_app
    = submit (saying "Error: timed out") "hi" fresh_app.
Proof.
  assert (Hne : "hi" ≠ "") by done.
  split; [exact Hne|].
  exact (X14_error_turn_is_plain_text (mkExc "TimeoutError" "timed out")
           "hi" fresh_app Hne).
Defined.

End InteractionProperties.

(** * Further properties of the configuration *)

Section ConfigProperties.
Import Config Observations.

(** X15: the model chosen in the select box does not reach the
    subagents.  Whatever model the configuration is built for, each of
    its subagents runs on "sonnet". *)
Theorem X15_subagents_run_on_sonnet (m name : string) (d : AgentDefinition) :
  agents (get_claude_options m) !! name = Some d → agent_model d = "sonnet".
Proof.
  intros Hd.
  by destruct (agents_lookup _ _ _ Hd) as [[_ ->]|[[_ ->]|[_ ->]]].
Qed.

Lemma X15_opus_selected :
  agents (get_claude_options "opus") !! "events_agent" = Some events_agent
  ∧ agent_model events_agent = "sonnet".
Proof.
  assert (H : agents (get_claude_options "opus") !! "events_agent"
              = Some events_agent).
  { cbn [agents get_claude_options].
    rewrite !lookup_insert_ne by done. apply lookup_insert_eq. }
  split; [exact H|].
  exact (X15_subagents_run_on_sonnet "opus" "events_agent" events_agent H).
Defined.

Lemma task_not_in (l : list string) :
  bool_decide ("Task" ∉ l) = true → "Task" ∉ l.
Proof. apply bool_decide_eq_true_1. Qed.

(** X16: the tool that starts subagents is allowed to the main agent
    and to it alone.  "Task" is among the allowed tools of every
    configuration (the script notes it is required to use subagents),
    and no subagent has it: a subagent cannot start another one. *)
Theorem X16_task_tool_top_level_only (m : string) :
  "Task" ∈ allowed_tools (get_claude_options m)
  ∧ map_Forall (λ _ d, "Task" ∉ tools d) (agents (get_claude_options m)).
Proof.
  split.
  - cbn [allowed_tools get_claude_options]. unfold top_level_tools.
    apply elem_of_app. left. do 6 apply list_elem_of_further.
    apply list_elem_of_here.
  - intros name d Hd.
    destruct (agents_lookup _ _ _ Hd) as [[_ ->]|[[_ ->]|[_ ->]]];
      apply task_not_in; by vm_compute.
Qed.

(** X17: every MCP tool allowed has its server declared.  Among the
    allowed tools, those named as MCP tools are exactly those of the
    Playwright server, which is the one server under [mcp_servers]. *)
Theorem X17_mcp_tools_have_their_server (m : string) :
  Forall (λ tool, is_mcp_tool tool = is_playwright_tool tool)
    (allowed_tools (get_claude_options m))
  ∧ dom (mcp_servers (get_claude_options m)) = ({[ "Playwright" ]} : gset string)
  ∧ Exists (λ tool, is_playwright_tool tool = true)
      (allowed_tools (get_claude_options m)).
Proof.
  cbn [allowed_tools mcp_servers get_claude_options]. split; [|split].
  - unfold top_level_tools, playwright_tools. cbn [app].
    repeat (apply Forall_cons; split; [reflexivity|]). apply Forall_nil_2.
  - apply dom_singleton_L.
  - unfold top_level_tools. apply Exists_app. right.
    by apply Exists_cons_hd.
Qed.

End ConfigProperties.

(** * What the user sees *)

Section PageProperties.
Import Config Assembly Script Controller Samples Page.

Local Opaque process_message.

Lemma run_ui_bind {A B} (m : Ui A) (f : A → Ui B) (ss : SessionState)
    (pg : list Element) :
  run_ui (m ≫= f) ss pg =
    match run_ui m ss pg with
    | (Normal a, ss', pg') => run_ui (f a) ss' pg'
    | (Raised e, ss', pg') => (Raised e, ss', pg')
    | (RaisedBase b, ss', pg') => (RaisedBase b, ss', pg')
    | (RerunRequested, ss', pg') => (RerunRequested, ss', pg')
    end.
Proof. reflexivity. Qed.

(** The history loop draws one chat message per Turn, in order, and
    leaves the session alone. *)
Lemma run_history_loop (l : list Turn) (ss : SessionState) (pg : list Element) :
  run_ui
    (for_each l (λ message,
       within (ChatMessage (role message)) (draw (Markdown (content message)))))
    ss pg
  = (Normal (), ss, (pg ++ (history_message <$> l))%list).
Proof.
  revert pg. induction l as [|t l IH]; intros pg.
  - cbn. by rewrite app_nil_r.
  - cbn [for_each]. rewrite run_ui_bind. cbn [within draw run_ui app].
    rewrite IH. rewrite fmap_cons, <- app_assoc. reflexivity.
Qed.

Lemma run_history (l : list Turn) (ss : SessionState) (pg : list Element) :
  messages ss = Some l →
  run_ui history ss pg = (Normal (), ss, (pg ++ (history_message <$> l))%list).
Proof.
  intros Hl. unfold history. rewrite run_ui_bind.
  cbn [session_op run_ui get_messages run]. rewrite Hl.
  apply run_history_loop.
Qed.

Local Opaque history.

Lemma script_page_at_rest (agent : Agent) (w : Widgets) (ss : SessionState) :
  button w = false →
  truthy (chat_input w) = false →
  run_ui (script_page agent w) ss []
  = (Normal (), settled (selectbox w) (transcript ss) ss,
     main_page (selectbox w) (transcript ss)).
Proof.
  destruct w as [sel b ci], ss as [[l|] [c|] [m|]]; simpl; intros -> ->;
    unfold script_page; simpl;
    (erewrite run_history by reflexivity); reflexivity.
Qed.

Lemma script_page_clear (agent : Agent) (w : Widgets) (ss : SessionState) :
  button w = true →
  run_ui (script_page agent w) ss []
  = (RerunRequested, settled (selectbox w) [] ss, [ Sidebar sidebar_until_button ]).
Proof.
  destruct w as [sel b ci], ss as [[l|] [c|] [m|]]; simpl; intros ->;
    reflexivity.
Qed.

Lemma script_page_chat (agent : Agent) (w : Widgets) (ss : SessionState)
    (p : string) :
  button w = false →
  chat_input w = Some p →
  p ≠ "" →
  run_ui (script_page agent w) ss []
  = (Normal (),
     settled (selectbox w)
       (transcript ss ++
          [ user_turn p;
            assistant_turn (reply (process_message agent p (selectbox w))) ])
       ss,
     (main_page (selectbox w) (transcript ss) ++
        [ ChatMessage "user" [ Markdown p ];
          ChatMessage "assistant"
            [ reply_box (process_message agent p (selectbox w)) ] ])%list).
Proof.
  destruct w as [sel b ci]; simpl. intros -> -> Hp.
  destruct p as [|a p]; [done|].
  destruct ss as [[l|] [c|] [m|]]; unfold script_page, settled, transcript; simpl;
    (erewrite run_history by reflexivity); simpl;
    destruct (process_message agent (String a p) sel) as [r|e]; simpl;
    by rewrite <- ?app_assoc.
Qed.

(** Drawing does not change what the script does to the session: the
    execution with the page ends as the execution without it. *)
Lemma execute_page_session (agent : Agent) (w : Widgets) (ss : SessionState) :
  (execute_page agent w ss).1 = execute agent w ss.
Proof.
  unfold execute_page. rewrite execute_eq. destruct (button w) eqn:Hb.
  - rewrite script_page_clear, script_clear by done.
    by rewrite script_page_at_rest, script_at_rest.
  - destruct (chat_input w) as [[|a p]|] eqn:Hp.
    + rewrite script_page_at_rest, script_at_rest; by rewrite ?Hp.
    + by rewrite (script_page_chat _ _ _ (String a p)),
                 (script_chat _ _ _ (String a p)).
    + rewrite script_page_at_rest, script_at_rest; by rewrite ?Hp.
Qed.

Lemma chat_shown_app (pg1 pg2 : list Element) :
  chat_shown (pg1 ++ pg2) = (chat_shown pg1 ++ chat_shown pg2)%list.
Proof. apply flat_map_app. Qed.

Lemma chat_shown_history (l : list Turn) :
  chat_shown (history_message <$> l) = l.
Proof.
  induction l as [|[r c] l IH]; [done|].
  rewrite fmap_cons. unfold chat_shown in *. cbn [flat_map]. rewrite IH.
  reflexivity.
Qed.

Lemma chat_shown_main_page (sel : string) (l : list Turn) :
  chat_shown (main_page sel l) = l.
Proof.
  unfold main_page. rewrite !chat_shown_app, chat_shown_history.
  cbn. by rewrite app_nil_r.
Qed.

(** X18: the chat area shows the Transcript.  At the end of any
    execution (after any click, choice or text, with a reply or a
    failure) the chat messages on the page, read from top to bottom with
    their names and texts, are exactly the Turns stored in the session. *)
Theorem X18_page_shows_transcript (agent : Agent) (w : Widgets) (ss : SessionState) :
  chat_shown (page_of (execute_page agent w ss))
  = transcript (session_of (execute_page agent w ss)).
Proof.
  unfold execute_page, page_of, session_of. destruct (button w) eqn:Hb.
  - rewrite script_page_clear by done.
    rewrite script_page_at_rest by done. cbn [fst snd].
    apply chat_shown_main_page.
  - destruct (chat_input w) as [[|a p]|] eqn:Hp.
    + rewrite script_page_at_rest; [|done|by rewrite Hp].
      apply chat_shown_main_page.
    + rewrite (script_page_chat _ _ _ (String a p)) by done. cbn [fst snd].
      rewrite chat_shown_app, chat_shown_main_page.
      unfold transcript, settled. cbn [messages default]. f_equal.
      by destruct (process_message agent (String a p) (selectbox w)).
    + rewrite script_page_at_rest; [|done|by rewrite Hp].
      apply chat_shown_main_page.
Qed.

Lemma caption_in_main_page (sel : string) (l : list Turn) :
  Caption ("Using model: " +:+ sel) ∈ main_page sel l.
Proof.
  unfold main_page. apply elem_of_app. left.
  do 2 apply list_elem_of_further. apply list_elem_of_here.
Qed.

(** X19: the caption names the model of the select box.  At the end of
    any execution the page carries the caption "Using model: " followed
    by the value the select box has in that execution, whatever model
    the session held before. *)
Theorem X19_caption_names_selected_model
    (agent : Agent) (w : Widgets) (ss : SessionState) :
  Caption ("Using model: " +:+ selectbox w) ∈ page_of (execute_page agent w ss).
Proof.
  unfold execute_page, page_of. destruct (button w) eqn:Hb.
  - rewrite script_page_clear by done.
    rewrite script_page_at_rest by done. apply caption_in_main_page.
  - destruct (chat_input w) as [[|a p]|] eqn:Hp.
    + rewrite script_page_at_rest; [|done|by rewrite Hp].
      apply caption_in_main_page.
    + rewrite (script_page_chat _ _ _ (String a p)) by done. cbn [snd].
      apply elem_of_app. left. apply caption_in_main_page.
    + rewrite script_page_at_rest; [|done|by rewrite Hp].
      apply caption_in_main_page.
Qed.

Lemma no_error_box_in_history (l : list Turn) :
  existsb is_error_box (history_message <$> l) = false.
Proof. induction l as [|t l IH]; [done|]. rewrite fmap_cons. exact IH. Qed.

Lemma no_error_box_in_main_page (sel : string) (l : list Turn) :
  existsb is_error_box (main_page sel l) = false.
Proof.
  unfold main_page. rewrite !existsb_app, no_error_box_in_history. reflexivity.
Qed.

(** X20: an error is shown as an error once.  In the execution in which
    the request fails, the last element of the page is the assistant
    message drawn as an error box ([st.error]).  In the next execution
    without interaction the history loop draws that same Turn as
    ordinary Markdown, and the page has no error box left. *)
Theorem X20_error_box_shown_once
    (agent agent' : Agent) (w w' : Widgets) (ss : SessionState)
    (p : string) (e : PyException) :
  button w = false →
  chat_input w = Some p →
  p ≠ "" →
  process_message agent p (selectbox w) = Raises e →
  last (page_of (execute_page agent w ss))
    = Some (ChatMessage "assistant" [ Error ("Error: " +:+ exc_str e) ])
  ∧ history_message (assistant_turn ("Error: " +:+ exc_str e))
      ∈ page_of (execute_page agent' (at_rest w')
                   (session_of (execute_page agent w ss)))
  ∧ existsb is_error_box
      (page_of (execute_page agent' (at_rest w')
                  (session_of (execute_page agent w ss))))
    = false.
Proof.
  intros Hb Hp Hne He. unfold execute_page, page_of, session_of.
  rewrite (script_page_chat _ _ _ p) by done. rewrite He. cbn [fst snd reply reply_box].
  rewrite script_page_at_rest by done.
  cbn [snd]. split; [|split].
  - rewrite (app_assoc _ [_] [_] : (_ ++ [_; _])%list = _). apply last_snoc.
  - unfold main_page, transcript, settled. cbn [messages default].
    apply elem_of_app. right. apply elem_of_app. left.
    apply list_elem_of_fmap_2. apply elem_of_app. right.
    apply list_elem_of_further, list_elem_of_here.
  - apply no_error_box_in_main_page.
Qed.

Lemma X20_broken_then_refresh :
  button (mkWidgets "sonnet" false (Some "hi")) = false
  ∧ chat_input (mkWidgets "sonnet" false (Some "hi")) = Some "hi"
  ∧ "hi" ≠ ""
  ∧ process_message broken "hi" (selectbox (mkWidgets "sonnet" false (Some "hi")))
      = Raises (mkExc "CLIConnectionError" "Not connected")
  ∧ last (page_of (execute_page broken (mkWidgets "sonnet" false (Some "hi"))
                     empty_session))
      = Some (ChatMessage "assistant" [ Error "Error: Not connected" ])
  ∧ existsb is_error_box
      (page_of (execute_page silent (at_rest (mkWidgets "sonnet" false None))
                  (session_of (execute_page broken
                                 (mkWidgets "sonnet" false (Some "hi"))
                                 empty_session))))
    = false.
Proof.
  assert (Hb : button (mkWidgets "sonnet" false (Some "hi")) = false) by done.
  assert (Hp : chat_input (mkWidgets "sonnet" false (Some "hi")) = Some "hi") by done.
  assert (Hne : "hi" ≠ "") by done.
  assert (He : process_message broken "hi"
                 (selectbox (mkWidgets "sonnet" false (Some "hi")))
               = Raises (mkExc "CLIConnectionError" "Not connected")) by done.
  split; [exact Hb|]. split; [exact Hp|]. split; [exact Hne|]. split; [exact He|].
  destruct (X20_error_box_shown_once broken silent
              (mkWidgets "sonnet" false (Some "hi")) (mkWidgets "sonnet" false None)
              empty_session "hi" _ Hb Hp Hne He) as (Hlast & _ & Hnone).
  split; [exact Hlast|exact Hnone].
Defined.

End PageProperties.
